(** * Crop Recommendation System: the submission handler of [app.py]

    A shallow embedding of [load_model], [predict_crop], [validate_inputs]
    and [main] of [src/app.py], and the properties of the validation and
    inference path proved over it.

    Python values are modelled as the code has them: the text of a form
    field is a [string]; the result of [float(x)] is an IEEE binary64
    number, a [spec_float] of the Standard Library at precision 53; the
    feature list holds [None] or a float; the calls to Streamlit are the
    events of a trace, in the order the script issues them. *)

From Stdlib Require Import ZArith List String Ascii Bool Lia.
From Stdlib Require Import SpecFloat DecimalString.
Import ListNotations.

Local Open Scope string_scope.
Local Open Scope list_scope.

(** ** Python strings *)

Module PyStr.

Definition is_upper (c : ascii) : bool :=
  let n := nat_of_ascii c in ((65 <=? n) && (n <=? 90))%nat.
Definition is_lower (c : ascii) : bool :=
  let n := nat_of_ascii c in ((97 <=? n) && (n <=? 122))%nat.
Definition upper (c : ascii) : ascii :=
  if is_lower c then ascii_of_nat (nat_of_ascii c - 32) else c.
Definition lower (c : ascii) : ascii :=
  if is_upper c then ascii_of_nat (nat_of_ascii c + 32) else c.

(** [c.isspace()] for an ASCII character: the controls 9 to 13, the
    separators 28 to 31 and the space. *)
Definition isspace (c : ascii) : bool :=
  let n := nat_of_ascii c in
  ((9 <=? n) && (n <=? 13) || (28 <=? n) && (n <=? 32))%nat.

(** [s.title()] for a string of ASCII characters: a letter that follows a
    letter is put in lower case, any other letter in upper case. The
    program below takes [str.title] as a parameter; this function is its
    instance in the examples, which use ASCII labels only. *)
Fixpoint title_from (after_letter : bool) (s : string) : string :=
  match s with
  | EmptyString => EmptyString
  | String c s' =>
      if is_upper c || is_lower c then
        String (if after_letter then lower c else upper c) (title_from true s')
      else String c (title_from false s')
  end.
Definition title (s : string) : string := title_from false s.

(** The truth value of a string: [if x]. *)
Definition truthy (x : string) : bool :=
  match x with EmptyString => false | String _ _ => true end.

(** [str(i)] for an int, as an f-string prints it. *)
Definition of_int (i : Z) : string := NilZero.string_of_int (Z.to_int i).

Definition nl : string := String (ascii_of_nat 10) EmptyString.

End PyStr.

(** ** Python floats *)

Module PyFloat.

(** binary64: 53 bits of mantissa, infinities at exponent 1024. *)
Definition prec : Z := 53.
Definition emax : Z := 1024.

Definition nan : spec_float := S754_nan.
Definition inf (neg : bool) : spec_float := S754_infinity neg.

(** [float(i)] for a Python int; exact for the bounds used by the form. *)
Definition of_int (i : Z) : spec_float := binary_normalize prec emax i 0 false.

(** The correctly rounded (nearest, ties to even) binary64 value of
    [num / den] for positive [num] and [den], with the sign [neg]. *)
Definition of_ratio (neg : bool) (num den : Z) : spec_float :=
  let '(q, e, l) := SFdiv_core_binary prec emax num 0 den 0 in
  binary_round_aux prec emax neg q e l.

(** The value of the decimal [m * 10^e10], [m >= 0]. *)
Definition of_decimal (neg : bool) (m e10 : Z) : spec_float :=
  match m with
  | Z0 => S754_zero neg
  | _ => of_ratio neg (m * 10 ^ Z.max e10 0) (10 ^ Z.max (- e10) 0)
  end%Z.

(** [value < bound] and [value > bound] where [bound] is a Python int:
    both are False when [value] is NaN. *)
Definition lt_int (value : spec_float) (bound : Z) : bool := SFltb value (of_int bound).
Definition gt_int (value : spec_float) (bound : Z) : bool := SFltb (of_int bound) value.
Definition le_int (value : spec_float) (bound : Z) : bool := SFleb value (of_int bound).
Definition ge_int (value : spec_float) (bound : Z) : bool := SFleb (of_int bound) value.
Definition eq_int (value : spec_float) (bound : Z) : bool := SFeqb value (of_int bound).

(** *** [float(str)]

    The grammar of the language reference, for a string of ASCII
    characters: surrounding whitespace (the characters 9 to 13 and the
    space) is dropped, then
    [[sign] (floatnumber | "inf" | "infinity" | "nan")] (letters in any
    case) where [floatnumber] is [number [exponent]],
    [number] is [[digitpart] "." digitpart | digitpart ["."]],
    [exponent] is [("e" | "E") [sign] digitpart] and
    [digitpart] is [digit (["_"] digit)*].
    [None] stands for the [ValueError] the builtin raises. On a string
    with a character above 127 the builtin first maps Unicode spaces and
    decimal digits to ASCII; that step is not modelled, and this function is
    applied below to ASCII text only, the program taking [float] as a
    parameter. *)

Definition is_space (c : ascii) : bool :=
  let n := nat_of_ascii c in
  ((9 <=? n) && (n <=? 13) || (n =? 32))%nat.

Definition is_digit (c : ascii) : bool :=
  let n := nat_of_ascii c in ((48 <=? n) && (n <=? 57))%nat.

Definition digit_value (c : ascii) : Z := (Z.of_nat (nat_of_ascii c) - 48)%Z.

Fixpoint lstrip (s : list ascii) : list ascii :=
  match s with
  | c :: s' => if is_space c then lstrip s' else s
  | [] => []
  end.

Definition strip (s : list ascii) : list ascii := rev (lstrip (rev (lstrip s))).

(** The rest of a [digitpart] once its first digit is read: the digits
    read so far (last first) and the text left. *)
Fixpoint digitpart_rest (s acc : list ascii) : list ascii * list ascii :=
  match s with
  | c :: s' =>
      if is_digit c then digitpart_rest s' (c :: acc)
      else if Ascii.eqb c "_" then
        match s' with
        | d :: s'' => if is_digit d then digitpart_rest s'' (d :: acc) else (acc, s)
        | [] => (acc, s)
        end
      else (acc, s)
  | [] => (acc, s)
  end.

Definition digitpart (s : list ascii) : option (list ascii * list ascii) :=
  match s with
  | c :: s' =>
      if is_digit c then
        let '(acc, rest) := digitpart_rest s' [c] in Some (rev acc, rest)
      else None
  | [] => None
  end.

Definition digits_value (ds : list ascii) : Z :=
  fold_left (fun v d => 10 * v + digit_value d)%Z ds 0%Z.

(** [number]: the digits of the integer part, those of the fraction, and
    the text left. *)
Definition number (s : list ascii) : option (list ascii * list ascii * list ascii) :=
  match digitpart s with
  | Some (ip, rest) =>
      match rest with
      | c :: rest' =>
          if Ascii.eqb c "." then
            match digitpart rest' with
            | Some (fp, rest'') => Some (ip, fp, rest'')
            | None => Some (ip, [], rest')
            end
          else Some (ip, [], rest)
      | [] => Some (ip, [], [])
      end
  | None =>
      match s with
      | c :: rest =>
          if Ascii.eqb c "." then
            match digitpart rest with
            | Some (fp, rest') => Some ([], fp, rest')
            | None => None
            end
          else None
      | [] => None
      end
  end.

Definition sign (s : list ascii) : bool * list ascii :=
  match s with
  | c :: s' =>
      if Ascii.eqb c "-" then (true, s')
      else if Ascii.eqb c "+" then (false, s')
      else (false, s)
  | [] => (false, [])
  end.

(** [exponent], which must end the text; the empty text is exponent 0. *)
Definition exponent (s : list ascii) : option Z :=
  match s with
  | [] => Some 0%Z
  | c :: s' =>
      if Ascii.eqb (PyStr.lower c) "e" then
        let '(neg, s'') := sign s' in
        match digitpart s'' with
        | Some (ds, []) => Some (if neg then - digits_value ds else digits_value ds)%Z
        | _ => None
        end
      else None
  end.

Definition floatnumber (neg : bool) (s : list ascii) : option spec_float :=
  match number s with
  | Some (ip, fp, rest) =>
      match exponent rest with
      | Some e =>
          Some (of_decimal neg (digits_value (ip ++ fp)) (e - Z.of_nat (List.length fp))%Z)
      | None => None
      end
  | None => None
  end.

Definition float_of_chars (s : list ascii) : option spec_float :=
  let '(neg, body) := sign (strip s) in
  let word := string_of_list_ascii (map PyStr.lower body) in
  if String.eqb word "inf" || String.eqb word "infinity" then Some (inf neg)
  else if String.eqb word "nan" then Some nan
  else floatnumber neg body.

Definition float (x : string) : option spec_float :=
  float_of_chars (list_ascii_of_string x).

End PyFloat.

(** ** Values, events and scripts *)

(** What a slot of the feature list, or an argument of [validate_inputs],
    can hold. *)
Inductive pyval :=
| PyNone
| PyStr (s : string)
| PyFloat (f : spec_float).

(** A call that returns or raises; [msg] is [str(e)] of the exception. *)
Inductive outcome (A : Type) :=
| Returns (a : A)
| Raises (msg : string).
Arguments Returns {A} a.
Arguments Raises {A} msg.

(** The calls the script makes to the outside, in order. *)
Inductive event :=
| st_markdown (body : string)
| st_error (body : string)
| st_success (body : string)
| st_subheader (body : string)
| st_write (body : string)
| st_columns
| st_text_input (label help placeholder : string)
| st_button (label : string)
| st_spinner (text : string)
| time_sleep (seconds : Z)
| pickle_load (path : string)
| model_predict (rows : list (list pyval)).

(** The exceptions that can leave the [try] of [main]. [ValueError] stands
    for the class and its subclasses, which [except ValueError] catches;
    [OtherError] for a class that is none of the three. *)
Inductive exn := ValueError | TypeError | AttributeError | OtherError (name : string).

(** A script returns a value or raises, and leaves a trace of events. *)
Module Script.

Inductive result (A : Type) :=
| Done (a : A)
| Raise (e : exn).
Arguments Done {A} a.
Arguments Raise {A} e.

Definition script (A : Type) : Type := result A * list event.

Definition ret {A} (a : A) : script A := (Done a, []).
Definition raise {A} (e : exn) : script A := (Raise e, []).
Definition emit (ev : event) : script unit := (Done tt, [ev]).

Definition bind {A B} (m : script A) (k : A -> script B) : script B :=
  match m with
  | (Done a, t) => let '(r, t') := k a in (r, t ++ t')
  | (Raise e, t) => (Raise e, t)
  end.

(** [try: body except ValueError: handler]. *)
Definition try_except_ValueError {A} (body handler : script A) : script A :=
  match body with
  | (Raise ValueError, t) => let '(r, t') := handler in (r, t ++ t')
  | _ => body
  end.

Fixpoint for_each {A} (xs : list A) (body : A -> script unit) : script unit :=
  match xs with
  | [] => ret tt
  | x :: xs' => bind (body x) (fun _ => for_each xs' body)
  end.

Definition trace {A} (m : script A) : list event := snd m.
Definition value {A} (m : script A) : result A := fst m.

End Script.
Import Script.

Declare Scope script_scope.
Delimit Scope script_scope with script.
Notation "x <- m ;; k" := (bind m (fun x => k))
  (at level 61, m at next level, right associativity) : script_scope.
Notation "m ;; k" := (bind m (fun _ => k))
  (at level 61, right associativity) : script_scope.
Local Open Scope script_scope.

(** What [model.predict(rows).item()] returns. The program applies two
    operations to it, [if prediction] and [f"{prediction.title()}"]. A str
    is given by its text. An object of another type is given by what the two
    operations do on it, each returning or raising: an int or a float has
    no [title], so that [titled] is [Raise AttributeError]; bytes have one,
    and [titled] is the text the f-string makes of its result. *)
Inductive scalar :=
| ScalarStr (s : string)
| ScalarOther (truth : result bool) (titled : result string).

(** The unpickled model: opaque, it only predicts. [predict rows] is the
    outcome of [model.predict(rows).item()]. An object without a usable
    [predict] is a model whose [predict] always raises. *)
Record Model := { predict : list (list pyval) -> outcome scalar }.

(** The text typed in the seven fields, as [st.text_input] returns it. *)
Module Form.
Record t := make {
  n : string; p : string; k : string; temperature : string;
  humidity : string; ph : string; rainfall : string }.

(** [[n, p, k, temperature, humidity, ph, rainfall]] *)
Definition fields (f : t) : list string :=
  [n f; p f; k f; temperature f; humidity f; ph f; rainfall f].
End Form.

(** ** The program *)

Section App.

(** The builtin [float] on a string: [None] when it raises [ValueError]. *)
Variable float : string -> option spec_float.

(** The method [str.title]. *)
Variable title : string -> string.

(** [load_model]: [artifact] is the outcome of opening and unpickling
    ['lgb_model.pickle']; the object unpickled is a model or [None]. *)
Definition load_model (artifact : outcome (option Model)) : script (option Model) :=
  emit (pickle_load "lgb_model.pickle") ;;
  match artifact with
  | Returns model => ret model
  | Raises e => emit (st_error ("Error loading model: " ++ e)) ;; ret None
  end.

Definition predict_crop (model : Model) (features : list pyval) : script (option scalar) :=
  emit (model_predict [features]) ;;
  match predict model [features] with
  | Returns predicted_crop => ret (Some predicted_crop)
  | Raises e => emit (st_error ("Error making prediction: " ++ e)) ;; ret None
  end.

Definition input_names : list string :=
  ["Nitrogen"; "Phosphorus"; "Potassium"; "Temperature";
   "Humidity"; "pH Level"; "Rainfall"].

(** [value is None or value == ""] *)
Definition is_missing (value : pyval) : bool :=
  match value with
  | PyNone => true
  | PyStr s => negb (PyStr.truthy s)
  | PyFloat _ => false
  end.

(** The loop of [validate_inputs] over [zip(inputs, input_names)]. *)
Fixpoint validate_loop (zipped : list (pyval * string))
    (validation_messages : list string) : list string :=
  match zipped with
  | [] => validation_messages
  | (value, name) :: rest =>
      validate_loop rest
        (if is_missing value
         then validation_messages ++ [(name ++ " is required")%string]
         else validation_messages)
  end.

Definition validate_inputs (inputs : list pyval) : list string :=
  validate_loop (combine inputs input_names) [].

(** [float(x) if x else None] *)
Definition to_feature (x : string) : script pyval :=
  if PyStr.truthy x then
    match float x with
    | Some f => ret (PyFloat f)
    | None => raise ValueError
    end
  else ret PyNone.

(** The list comprehension: left to right, the first failure raises. *)
Fixpoint to_features (xs : list string) : script (list pyval) :=
  match xs with
  | [] => ret []
  | x :: xs' =>
      v <- to_feature x ;;
      vs <- to_features xs' ;;
      ret (v :: vs)
  end.

Definition ranges : list (Z * Z * string) :=
  [(0, 140, "Nitrogen"); (0, 140, "Phosphorus");
   (0, 200, "Potassium"); (0, 50, "Temperature");
   (0, 100, "Humidity"); (0, 14, "pH");
   (0, 300, "Rainfall")]%Z.

(** [value < bound] and [value > bound] on a slot of the feature list:
    comparing [None] or a string with an int raises [TypeError]. *)
Definition value_lt (value : pyval) (bound : Z) : script bool :=
  match value with
  | PyFloat f => ret (PyFloat.lt_int f bound)
  | _ => raise TypeError
  end.
Definition value_gt (value : pyval) (bound : Z) : script bool :=
  match value with
  | PyFloat f => ret (PyFloat.gt_int f bound)
  | _ => raise TypeError
  end.

Definition range_message (min_val max_val : Z) (name : string) : string :=
  name ++ " must be between " ++ PyStr.of_int min_val ++ " and " ++ PyStr.of_int max_val.

(** The loop over [zip(features, ranges)]; [or] evaluates its right
    operand only when the left one is False. *)
Fixpoint range_loop (zipped : list (pyval * (Z * Z * string)))
    (range_errors : list string) : script (list string) :=
  match zipped with
  | [] => ret range_errors
  | (value, (min_val, max_val, name)) :: rest =>
      below <- value_lt value min_val ;;
      outside <- (if below then ret true else value_gt value max_val) ;;
      range_loop rest
        (if outside
         then range_errors ++ [range_message min_val max_val name]
         else range_errors)
  end.

Definition warning (msg : string) : string :=
  "<p class='warning'>• " ++ msg ++ "</p>".

Definition show_issues (msgs : list string) : script unit :=
  emit (st_error "Please fix the following issues:") ;;
  for_each msgs (fun msg => emit (st_markdown (warning msg))).

Definition nonempty {A} (l : list A) : bool :=
  match l with [] => false | _ :: _ => true end.

(** [if prediction]: a str is true when it is not empty. *)
Definition truth_value (prediction : scalar) : script bool :=
  match prediction with
  | ScalarStr s => ret (PyStr.truthy s)
  | ScalarOther truth _ => (truth, [])
  end.

(** [f"{prediction.title()}"] *)
Definition prediction_title (prediction : scalar) : script string :=
  match prediction with
  | ScalarStr s => ret (title s)
  | ScalarOther _ titled => (titled, [])
  end.

Definition recommended (titled : string) : string :=
  "### Recommended Crop: **" ++ titled ++ "** 🌱".

Definition based_on (f : Form.t) : string :=
  let indent := "                            " in
  PyStr.nl ++
  indent ++ "This recommendation is based on:" ++ PyStr.nl ++
  indent ++ "- Nitrogen: " ++ Form.n f ++ " mg/kg" ++ PyStr.nl ++
  indent ++ "- Phosphorus: " ++ Form.p f ++ " mg/kg" ++ PyStr.nl ++
  indent ++ "- Potassium: " ++ Form.k f ++ " mg/kg" ++ PyStr.nl ++
  indent ++ "- Temperature: " ++ Form.temperature f ++ "°C" ++ PyStr.nl ++
  indent ++ "- Humidity: " ++ Form.humidity f ++ "%" ++ PyStr.nl ++
  indent ++ "- pH Level: " ++ Form.ph f ++ PyStr.nl ++
  indent ++ "- Rainfall: " ++ Form.rainfall f ++ " mm" ++ PyStr.nl ++
  indent.

(** The body of the [try] of [main]. *)
Definition try_body (model : Model) (f : Form.t) : script unit :=
  features <- to_features (Form.fields f) ;;
  let validation_messages := validate_inputs features in
  if nonempty validation_messages then show_issues validation_messages
  else
    range_errors <- range_loop (combine features ranges) [] ;;
    if nonempty range_errors then show_issues range_errors
    else
      emit (st_spinner "Analyzing soil and climate parameters...") ;;
      emit (time_sleep 1) ;;
      prediction <- predict_crop model features ;;
      match prediction with
      | Some label =>
          shown <- truth_value label ;;
          if shown then
            titled <- prediction_title label ;;
            emit (st_success (recommended titled)) ;;
            emit (st_markdown (based_on f))
          else ret tt
      | None => ret tt
      end.

(** What runs when the button is pressed: the [try] and its handler. *)
Definition on_predict (model : Model) (f : Form.t) : script unit :=
  try_except_ValueError (try_body model f)
    (emit (st_error "Please ensure all inputs are valid numbers")).

Definition about : string :=
  let indent := "        " in
  PyStr.nl ++
  indent ++ "This Crop Recommendation System uses advanced machine learning techniques "
         ++ PyStr.nl ++
  indent ++ "to suggest the most suitable crop based on soil parameters and climate conditions."
         ++ PyStr.nl ++
  indent ++ PyStr.nl ++
  indent ++ "Our model achieves 99% accuracy in predicting the optimal crop for your agricultural needs."
         ++ PyStr.nl ++
  indent.

Definition crops : list string :=
  ["rice"; "maize"; "chickpea"; "kidneybeans"; "pigeonpeas";
   "mothbeans"; "mungbean"; "blackgram"; "lentil"; "pomegranate";
   "banana"; "mango"; "grapes"; "watermelon"; "muskmelon"; "apple";
   "orange"; "papaya"; "coconut"; "cotton"; "jute"; "coffee"].

(** The two columns of the page: the seven fields, the notice, and the
    button. What the widgets return is an argument of [main]. *)
Definition render_form : script unit :=
  emit st_columns ;;
  emit (st_subheader "Enter Soil and Climate Parameters") ;;
  emit (st_text_input "Nitrogen (N) - mg/kg"
          "Enter the nitrogen content in mg/kg" "Enter value between 0-140") ;;
  emit (st_text_input "Phosphorus (P) - mg/kg"
          "Enter the phosphorus content in mg/kg" "Enter value between 0-140") ;;
  emit (st_text_input "Potassium (K) - mg/kg"
          "Enter the potassium content in mg/kg" "Enter value between 0-200") ;;
  emit (st_text_input "Temperature (°C)"
          "Enter the temperature in Celsius" "Enter value between 0-50") ;;
  emit (st_text_input "Humidity (%)"
          "Enter the humidity percentage" "Enter value between 0-100") ;;
  emit (st_text_input "pH Level"
          "Enter the pH level of soil" "Enter value between 0-14") ;;
  emit (st_text_input "Rainfall (mm)"
          "Enter the rainfall in millimeters" "Enter value between 0-300") ;;
  emit (st_subheader "About") ;;
  emit (st_write about) ;;
  emit (st_markdown "### Available Crops") ;;
  emit (st_write (String.concat ", " crops)) ;;
  emit (st_button "Predict Recommended Crop").

(** One run of [main]: [artifact] is what the model file yields in this
    run, [f] the text in the fields and [clicked] what [st.button]
    returns. *)
Definition main (artifact : outcome (option Model)) (f : Form.t) (clicked : bool) :
    script unit :=
  emit (st_markdown "<h1 class='title-text'>🌾 Crop Recommendation System</h1>") ;;
  emit (st_markdown "<p class='subtitle-text'>Powered by Machine Learning with 99% Accuracy</p>") ;;
  model <- load_model artifact ;;
  match model with
  | None =>
      emit (st_error "Failed to load the model. Please check if 'model.pickle' exists.")
  | Some model =>
      render_form ;;
      if clicked then on_predict model f else ret tt
  end.

End App.

(** ** Reading a trace *)

Definition markdowns (t : list event) : list string :=
  flat_map (fun ev => match ev with st_markdown body => [body] | _ => [] end) t.

Definition errors (t : list event) : list string :=
  flat_map (fun ev => match ev with st_error body => [body] | _ => [] end) t.

Definition successes (t : list event) : list string :=
  flat_map (fun ev => match ev with st_success body => [body] | _ => [] end) t.

(** The arguments of the calls to [model.predict]. *)
Definition model_calls (t : list event) : list (list (list pyval)) :=
  flat_map (fun ev => match ev with model_predict rows => [rows] | _ => [] end) t.

(** The files unpickled. *)
Definition loads (t : list event) : list string :=
  flat_map (fun ev => match ev with pickle_load path => [path] | _ => [] end) t.

(** The widgets drawn: text inputs and buttons. *)
Definition widgets (t : list event) : list string :=
  flat_map (fun ev => match ev with
                      | st_text_input label _ _ | st_button label => [label]
                      | _ => []
                      end) t.

(** How many times the handler shows the per-field message [msg]. *)
Definition times_shown (float : string -> option spec_float) (title : string -> string)
    (model : Model) (f : Form.t) (msg : string) : nat :=
  count_occ string_dec (markdowns (trace (on_predict float title model f))) (warning msg).

(** ** Fields, values and messages *)

(** Text that is not empty and that [float] rejects. *)
Definition non_numeric (float : string -> option spec_float) (x : string) : Prop :=
  x <> ""%string /\ float x = None.

(** Text that is not empty and that [float] reads as [v]. *)
Definition reads_as (float : string -> option spec_float) (x : string)
    (v : spec_float) : Prop :=
  x <> ""%string /\ float x = Some v.

(** The slot an accepted field fills. *)
Definition slot (float : string -> option spec_float) (x : string) : pyval :=
  if PyStr.truthy x then
    match float x with Some v => PyFloat v | None => PyNone end
  else PyNone.

(** The values a form reads as, NaN standing for a field that fails. *)
Definition read_all (float : string -> option spec_float) (f : Form.t) : list spec_float :=
  map (fun x => match float x with Some v => v | None => S754_nan end) (Form.fields f).

(** [l] is [l'] with some elements left out, the order kept. *)
Inductive sublist {A : Type} : list A -> list A -> Prop :=
| sublist_nil : sublist [] []
| sublist_skip (x : A) (l l' : list A) : sublist l l' -> sublist l (x :: l')
| sublist_take (x : A) (l l' : list A) : sublist l l' -> sublist (x :: l) (x :: l').

(** A slot that holds a float, the only kind the range loop can compare. *)
Definition is_float (value : pyval) : bool :=
  match value with PyFloat _ => true | _ => false end.

(** Text made of ASCII whitespace only: [x == "" or x.isspace()]. *)
Definition blank (x : string) : bool :=
  forallb PyStr.isspace (list_ascii_of_string x).

Definition required (name : string) : string := name ++ " is required".

Definition generic_error : string := "Please ensure all inputs are valid numbers".

(** A value is out of its range when the test of the loop holds. *)
Definition outside (v : spec_float) (r : Z * Z * string) : bool :=
  let '(min_val, max_val, _) := r in
  PyFloat.lt_int v min_val || PyFloat.gt_int v max_val.

(** A value is within its range when [min_val <= value <= max_val]. *)
Definition within (v : spec_float) (r : Z * Z * string) : bool :=
  let '(min_val, max_val, _) := r in
  PyFloat.ge_int v min_val && PyFloat.le_int v max_val.

Definition range_message_of (r : Z * Z * string) : string :=
  let '(min_val, max_val, name) := r in range_message min_val max_val name.

(** The messages of the empty fields, in field order. *)
Definition missing_messages (f : Form.t) : list string :=
  map (fun xn => required (snd xn))
      (filter (fun xn => negb (PyStr.truthy (fst xn))) (combine (Form.fields f) input_names)).

(** The messages of the values below their minimum or above their maximum,
    in field order, for a submission whose fields read as [vs]. *)
Definition range_errors_of (vs : list spec_float) : list string :=
  map (fun vr => range_message_of (snd vr))
      (filter (fun vr => outside (fst vr) (snd vr)) (combine vs ranges)).

(** A list of messages as the handler shows it. *)
Definition issues (msgs : list string) : list event :=
  st_error "Please fix the following issues:"
  :: map (fun msg => st_markdown (warning msg)) msgs.

(** What the handler makes of the object the model returned: the text of
    the recommendation, if one is shown, or the exception raised on the
    way. *)
Definition rendering (title : string -> string) (prediction : scalar) :
    result (option string) :=
  match prediction with
  | ScalarStr s => Done (if PyStr.truthy s then Some (title s) else None)
  | ScalarOther (Done true) (Done text) => Done (Some text)
  | ScalarOther (Done true) (Raise e) => Raise e
  | ScalarOther (Done false) _ => Done None
  | ScalarOther (Raise e) _ => Raise e
  end.

(** What the last branch of the handler leaves in the trace... *)
Definition inference_trace (title : string -> string) (model : Model) (f : Form.t)
    (features : list pyval) : list event :=
  [st_spinner "Analyzing soil and climate parameters..."; time_sleep 1;
   model_predict [features]] ++
  match predict model [features] with
  | Returns prediction =>
      match rendering title prediction with
      | Done (Some text) => [st_success (recommended text); st_markdown (based_on f)]
      | Done None => []
      | Raise ValueError => [st_error generic_error]
      | Raise _ => []
      end
  | Raises e => [st_error ("Error making prediction: " ++ e)]
  end.

(** ... and how it ends: an exception of the object the model returned
    leaves [main], unless it is a [ValueError]. *)
Definition inference_value (title : string -> string) (model : Model)
    (features : list pyval) : result unit :=
  match predict model [features] with
  | Returns prediction =>
      match rendering title prediction with
      | Done _ => Done tt
      | Raise ValueError => Done tt
      | Raise e => Raise e
      end
  | Raises _ => Done tt
  end.

(** ** Sessions *)

(** Streamlit executes the script, and so [main], once per interaction:
    the button returns [True] only in the run its click starts. A run is
    given by what the model file yields, the text in the fields and the
    state of the button; a session is a sequence of runs in one process. *)
Record run := {
  run_artifact : outcome (option Model);
  run_form : Form.t;
  run_clicked : bool }.

Definition script_run (float : string -> option spec_float) (title : string -> string)
    (r : run) : list event :=
  trace (main float title (run_artifact r) (run_form r) (run_clicked r)).

Definition session (float : string -> option spec_float) (title : string -> string)
    (runs : list run) : list event :=
  flat_map (script_run float title) runs.

(** ** The specification's wording of three claims *)

(** The validation contract as the specification words it: every violated
    field, missing or out of range, has one message, in field order. *)
Definition violation (float : string -> option spec_float)
    (x name : string) (r : Z * Z * string) : list string :=
  match x with
  | EmptyString => [(name ++ " is required")%string]
  | _ =>
      match float x with
      | Some v => if within v r then [] else [range_message_of r]
      | None => []
      end
  end.

Definition violations (float : string -> option spec_float) (f : Form.t) : list string :=
  flat_map (fun xnr => violation float (fst xnr) (fst (snd xnr)) (snd (snd xnr)))
           (combine (Form.fields f) (combine input_names ranges)).

Definition reports_every_violation (float : string -> option spec_float)
    (title : string -> string) (model : Model) (f : Form.t) : Prop :=
  match violations float f with
  | [] => model_calls (trace (on_predict float title model f)) <> []
  | msgs => markdowns (trace (on_predict float title model f)) = map warning msgs
  end.

(** Rendering as the specification words it: a valid submission reaches
    the model, and whenever the call succeeds the label is rendered and the
    inputs are echoed. *)
Definition renders_every_prediction (float : string -> option spec_float)
    (title : string -> string) (model : Model) (f : Form.t) : Prop :=
  forall vs label,
    Forall2 (reads_as float) (Form.fields f) vs ->
    Forall2 (fun v r => within v r = true) vs ranges ->
    predict model [map PyFloat vs] = Returns (ScalarStr label) ->
    In (model_predict [map PyFloat vs]) (trace (on_predict float title model f)) /\
    In (st_success (recommended (title label))) (trace (on_predict float title model f)) /\
    In (st_markdown (based_on f)) (trace (on_predict float title model f)).

(** The life of the model as the specification words it: it is loaded once
    in the life of the process and never loaded again. *)
Definition loaded_once (float : string -> option spec_float) (title : string -> string)
    (runs : list run) : Prop :=
  (List.length (loads (session float title runs)) <= 1)%nat.

(** ** Examples *)

(** The submission of the specification: N=90, P=42, K=43,
    temperature=20.8, humidity=82, pH=6.5, rainfall=202.9. *)
Definition valid_form : Form.t := Form.make "90" "42" "43" "20.8" "82" "6.5" "202.9".

(** A model that always predicts rice, and one whose label is empty. *)
Definition rice_model : Model := {| predict := fun _ => Returns (ScalarStr "rice") |}.
Definition blank_model : Model := {| predict := fun _ => Returns (ScalarStr "") |}.

(** A model whose labels are ints, here a true one: an int has no [title]. *)
Definition int_model : Model :=
  {| predict := fun _ => Returns (ScalarOther (Done true) (Raise AttributeError)) |}.

Ltac distinct_strings :=
  repeat (constructor; [simpl; intuition discriminate|]); constructor.

Ltac all_read :=
  repeat (apply Forall2_cons; [split; [discriminate|vm_compute; reflexivity]|]);
  apply Forall2_nil.

(** ** Comparisons of floats *)

Module FloatFacts.

Lemma SFcompare_antisym (a b : spec_float) (c : comparison) :
  SFcompare a b = Some c -> SFcompare b a = Some (CompOpp c).
Proof.
  destruct a as [sa|sa| |sa ma ea], b as [sb|sb| |sb mb eb]; simpl;
    intros H; try discriminate; injection H as <-;
    try (destruct sa; reflexivity); try (destruct sb; reflexivity);
    try (destruct sa, sb; reflexivity).
  f_equal. rewrite (Z.compare_antisym ea eb).
  destruct sa, sb; simpl; try reflexivity;
    destruct (ea ?= eb)%Z; simpl; try reflexivity;
    rewrite (Pos.compare_cont_antisym ma mb Eq); reflexivity.
Qed.

Lemma SFcompare_None (a b : spec_float) :
  SFcompare a b = None -> a = S754_nan \/ b = S754_nan.
Proof.
  destruct a, b; simpl; intros H; try discriminate; auto.
Qed.

(** [a <= b] excludes [b < a]. *)
Lemma SFleb_not_gt (a b : spec_float) : SFleb a b = true -> SFltb b a = false.
Proof.
  unfold SFleb, SFltb. destruct (SFcompare a b) as [c|] eqn:E; [|discriminate].
  rewrite (SFcompare_antisym _ _ _ E). destruct c; simpl; congruence.
Qed.

(** Away from NaN the order is total. *)
Lemma SFltb_false_ge (a b : spec_float) :
  a <> S754_nan -> b <> S754_nan -> SFltb a b = false -> SFleb b a = true.
Proof.
  unfold SFleb, SFltb. intros Ha Hb.
  destruct (SFcompare a b) as [c|] eqn:E.
  - rewrite (SFcompare_antisym _ _ _ E). destruct c; simpl; congruence.
  - destruct (SFcompare_None _ _ E); contradiction.
Qed.

(** NaN is below nothing, above nothing and within nothing. *)
Lemma nan_unordered (b : spec_float) :
  SFltb S754_nan b = false /\ SFltb b S754_nan = false /\
  SFleb S754_nan b = false /\ SFleb b S754_nan = false.
Proof. destruct b; repeat split; reflexivity. Qed.

(** Two floats are [==] when they are the same or both zero. *)
Lemma SFeqb_true (a b : spec_float) :
  SFeqb a b = true ->
  a = b \/ exists sa sb, a = S754_zero sa /\ b = S754_zero sb.
Proof.
  unfold SFeqb.
  destruct a as [sa|sa| |sa ma ea], b as [sb|sb| |sb mb eb]; simpl;
    try discriminate; try (destruct sa; discriminate);
    try (destruct sb; discriminate).
  - intros _. right. eauto.
  - destruct sa, sb; try discriminate; auto.
  - destruct sa, sb; try discriminate;
      destruct (ea ?= eb)%Z eqn:Ee; try discriminate;
      destruct (Pos.compare_cont Eq ma mb) eqn:Em; try discriminate;
      intros _; left;
      apply Z.compare_eq in Ee; apply Pos.compare_eq in Em; subst; reflexivity.
Qed.

(** [==] floats compare alike with any third one. *)
Lemma SFeqb_compare (a b c : spec_float) :
  SFeqb a b = true ->
  SFcompare a c = SFcompare b c /\ SFcompare c a = SFcompare c b.
Proof.
  intros H. destruct (SFeqb_true _ _ H) as [->|(sa & sb & -> & ->)]; [auto|].
  destruct c; split; reflexivity.
Qed.

Lemma SFeqb_le (a b : spec_float) : SFeqb a b = true -> SFleb a b = true /\ SFleb b a = true.
Proof.
  unfold SFeqb, SFleb. destruct (SFcompare a b) as [[]|] eqn:E; try discriminate.
  rewrite (SFcompare_antisym _ _ _ E). auto.
Qed.

End FloatFacts.

(** ** Scripts *)

Section ScriptFacts.

Context {A B : Type}.

Lemma bind_ret (a : A) (k : A -> script B) : bind (ret a) k = k a.
Proof. unfold bind, ret. destruct (k a). reflexivity. Qed.

Lemma bind_emit (ev : event) (k : unit -> script B) :
  bind (emit ev) k = (value (k tt), ev :: trace (k tt)).
Proof. unfold bind, emit. destruct (k tt). reflexivity. Qed.

End ScriptFacts.

Lemma for_each_emit {A : Type} (ev : A -> event) (xs : list A) :
  for_each xs (fun x => emit (ev x)) = (Done tt, map ev xs).
Proof.
  induction xs as [|x xs IH]; cbn [for_each map]; [reflexivity|].
  rewrite bind_emit, IH. reflexivity.
Qed.

(** ** Selecting the messages of the fields that fail a test *)

Section Selection.

Context {A : Type}.
Variable sel : A -> bool.
Variable key : A -> string.

Lemma selected_in (l : list A) (s : string) :
  In s (map key (filter sel l)) -> In s (map key l).
Proof.
  rewrite !in_map_iff. intros (a & Ha & Hin).
  apply filter_In in Hin. exists a. tauto.
Qed.

(** With distinct messages, the message of the field at [i] is there
    once when the field fails the test, and not at all when it passes. *)
Lemma count_selected (l : list A) (i : nat) (a : A) :
  NoDup (map key l) -> nth_error l i = Some a ->
  count_occ string_dec (map key (filter sel l)) (key a) = if sel a then 1 else 0.
Proof.
  revert i. induction l as [|b l IH]; intros i Hnd Hi.
  - destruct i; discriminate.
  - simpl in Hnd. inversion Hnd as [|? ? Hnotin Hnd']; subst.
    destruct i as [|i]; simpl in Hi.
    + injection Hi as ->.
      assert (Hz : count_occ string_dec (map key (filter sel l)) (key a) = 0).
      { apply count_occ_not_In. intros Hin. apply Hnotin. revert Hin. apply selected_in. }
      simpl. destruct (sel a); simpl; [|exact Hz].
      destruct (string_dec (key a) (key a)); [|congruence]. rewrite Hz. reflexivity.
    + assert (Hne : key b <> key a).
      { intros Heq. apply Hnotin. rewrite Heq. apply in_map.
        eapply nth_error_In; eassumption. }
      simpl. destruct (sel b); simpl.
      * destruct (string_dec (key b) (key a)); [contradiction|]. eauto.
      * eauto.
Qed.

End Selection.

Lemma NoDup_map_combine {A B C : Type} (g : B -> C) (l : list A) (l' : list B) :
  NoDup (map g l') -> NoDup (map (fun ab => g (snd ab)) (combine l l')).
Proof.
  revert l. induction l' as [|b l' IH]; intros l Hnd.
  - destruct l; constructor.
  - destruct l as [|a l]; [constructor|].
    simpl in *. inversion Hnd as [|? ? Hnotin Hnd']; subst.
    constructor; [|auto].
    intros Hin. apply Hnotin. apply in_map_iff in Hin as ([a' b'] & Heq & Hin).
    simpl in Heq. rewrite <- Heq. apply in_map. eapply in_combine_r; eassumption.
Qed.

(** ** The pieces of the handler *)

Lemma validate_loop_spec (zipped : list (pyval * string)) (acc : list string) :
  validate_loop zipped acc =
  acc ++ map (fun vn => required (snd vn)) (filter (fun vn => is_missing (fst vn)) zipped).
Proof.
  revert acc. induction zipped as [|[value name] rest IH]; intros acc; simpl.
  - symmetry. apply app_nil_r.
  - rewrite IH. destruct (is_missing value); simpl; [|reflexivity].
    rewrite <- app_assoc. reflexivity.
Qed.

(** [validate_inputs] returns the "is required" messages of the missing
    slots, in the order of [input_names]. *)
Lemma validate_inputs_spec (inputs : list pyval) :
  validate_inputs inputs =
  map (fun vn => required (snd vn))
      (filter (fun vn => is_missing (fst vn)) (combine inputs input_names)).
Proof. unfold validate_inputs. apply validate_loop_spec. Qed.

Lemma validate_inputs_floats (vs : list spec_float) :
  validate_inputs (map PyFloat vs) = [].
Proof.
  rewrite validate_inputs_spec.
  generalize input_names. induction vs as [|v vs IH]; intros [|name names]; simpl; auto.
Qed.

Lemma validate_inputs_missing (inputs : list pyval) (i : nat) (value : pyval) (name : string) :
  nth_error inputs i = Some value -> nth_error input_names i = Some name ->
  is_missing value = true ->
  In (required name) (validate_inputs inputs).
Proof.
  intros Hv Hn Hm. rewrite validate_inputs_spec.
  apply (in_map (fun vn => required (snd vn)) _ (value, name)).
  apply filter_In. split; [|exact Hm].
  revert i inputs Hv Hn. generalize input_names as names.
  induction names as [|name' names IH]; intros [|i] [|v inputs] Hv Hn;
    try discriminate; simpl in *.
  - injection Hv as ->. injection Hn as ->. auto.
  - right. eauto.
Qed.

Lemma range_loop_floats (vs : list spec_float) (rs : list (Z * Z * string)) (acc : list string) :
  range_loop (combine (map PyFloat vs) rs) acc =
  ret (acc ++ map (fun vr => range_message_of (snd vr))
                  (filter (fun vr => outside (fst vr) (snd vr)) (combine vs rs))).
Proof.
  revert rs acc. induction vs as [|v vs IH]; intros rs acc.
  - simpl. rewrite app_nil_r. reflexivity.
  - destruct rs as [|[[min_val max_val] name] rs].
    + simpl. rewrite app_nil_r. reflexivity.
    + cbn [map combine range_loop value_lt value_gt filter fst snd outside].
      rewrite bind_ret.
      destruct (PyFloat.lt_int v min_val); cbn [orb]; rewrite bind_ret.
      * rewrite IH. cbn [map snd range_message_of]. rewrite <- app_assoc. reflexivity.
      * destruct (PyFloat.gt_int v max_val); rewrite IH; [|reflexivity].
        cbn [map snd range_message_of]. rewrite <- app_assoc. reflexivity.
Qed.

Lemma show_issues_spec (msgs : list string) :
  show_issues msgs =
  (Done tt, st_error "Please fix the following issues:"
            :: map (fun msg => st_markdown (warning msg)) msgs).
Proof. unfold show_issues. rewrite bind_emit, for_each_emit. reflexivity. Qed.

Lemma markdowns_issues (msgs : list string) :
  markdowns (map (fun msg => st_markdown (warning msg)) msgs) = map warning msgs.
Proof. induction msgs as [|m msgs IH]; simpl; [|rewrite IH]; reflexivity. Qed.

Lemma truthy_true (x : string) : PyStr.truthy x = true <-> x <> "".
Proof. destruct x; simpl; split; congruence. Qed.

Section Conversion.

Variable float : string -> option spec_float.

Lemma to_feature_empty : to_feature float "" = ret PyNone.
Proof. reflexivity. Qed.

Lemma to_feature_reads (x : string) (v : spec_float) :
  reads_as float x v -> to_feature float x = ret (PyFloat v).
Proof.
  intros [Hx Hv]. unfold to_feature. apply truthy_true in Hx. rewrite Hx, Hv. reflexivity.
Qed.

Lemma to_feature_non_numeric (x : string) :
  non_numeric float x -> to_feature float x = raise ValueError.
Proof.
  intros [Hx Hv]. unfold to_feature. apply truthy_true in Hx. rewrite Hx, Hv. reflexivity.
Qed.

(** A field is empty, read as a float, or not numeric. *)
Lemma field_cases (x : string) :
  x = "" \/ (exists v, reads_as float x v) \/ non_numeric float x.
Proof.
  destruct x as [|c x]; [auto|]. right.
  destruct (float (String c x)) as [v|] eqn:E.
  - left. exists v. split; [discriminate|exact E].
  - right. split; [discriminate|exact E].
Qed.

Lemma to_feature_accepted (x : string) :
  ~ non_numeric float x -> to_feature float x = ret (slot float x).
Proof.
  intros H. unfold to_feature, slot. destruct (PyStr.truthy x) eqn:Hx; [|reflexivity].
  destruct (float x) eqn:Hv; [reflexivity|].
  exfalso. apply H. split; [apply truthy_true; exact Hx|exact Hv].
Qed.

(** The comprehension raises as soon as one field is not numeric... *)
Lemma to_features_raises (xs : list string) :
  Exists (non_numeric float) xs -> to_features float xs = raise ValueError.
Proof.
  induction xs as [|x xs IH]; intros H; [inversion H|].
  cbn [to_features].
  destruct (field_cases x) as [->|[[v Hv]|Hn]].
  - rewrite to_feature_empty, bind_ret.
    inversion H as [? ? [Hx _]|? ? Hex]; subst; [congruence|].
    rewrite (IH Hex). reflexivity.
  - rewrite (to_feature_reads _ _ Hv), bind_ret.
    inversion H as [? ? [_ Hx]|? ? Hex]; subst; [destruct Hv; congruence|].
    rewrite (IH Hex). reflexivity.
  - rewrite (to_feature_non_numeric _ Hn). reflexivity.
Qed.

(** ... and otherwise fills one slot per field, without an event. *)
Lemma to_features_accepted (xs : list string) :
  Forall (fun x => ~ non_numeric float x) xs -> to_features float xs = ret (map (slot float) xs).
Proof.
  induction 1 as [|x xs Hx _ IH]; [reflexivity|].
  cbn [to_features map]. rewrite (to_feature_accepted _ Hx), bind_ret, IH, bind_ret.
  reflexivity.
Qed.

Lemma Exists_or_Forall_numeric (xs : list string) :
  Exists (non_numeric float) xs \/ Forall (fun x => ~ non_numeric float x) xs.
Proof.
  induction xs as [|x xs [IH|IH]]; auto.
  destruct (field_cases x) as [->|[[v [Hx Hv]]|Hn]]; auto;
    right; constructor; auto; intros [H1 H2]; congruence.
Qed.

Lemma slots_read (xs : list string) (vs : list spec_float) :
  Forall2 (reads_as float) xs vs -> map (slot float) xs = map PyFloat vs.
Proof.
  induction 1 as [|x v xs vs [Hx Hv] _ IH]; [reflexivity|].
  simpl. rewrite IH. unfold slot. apply truthy_true in Hx. rewrite Hx, Hv. reflexivity.
Qed.

Lemma reads_not_non_numeric (xs : list string) (vs : list spec_float) :
  Forall2 (reads_as float) xs vs -> Forall (fun x => ~ non_numeric float x) xs.
Proof.
  induction 1 as [|x v xs vs [Hx Hv] _ IH]; constructor; auto.
  intros [_ H]. congruence.
Qed.

End Conversion.

(** ** The handler, case by case *)

(** The seven fields line up with the seven names and the seven ranges. *)
Lemma field_index (f : Form.t) (i : nat) (x : string) :
  nth_error (Form.fields f) i = Some x ->
  exists name r, nth_error input_names i = Some name /\ nth_error ranges i = Some r.
Proof.
  intros H.
  do 7 (destruct i as [|i]; [simpl; eauto|]).
  destruct i; discriminate.
Qed.

Section Handler.

Variable float : string -> option spec_float.
Variable title : string -> string.
Variable model : Model.

Lemma inference_spec (f : Form.t) (features : list pyval) :
  try_except_ValueError
    (emit (st_spinner "Analyzing soil and climate parameters...") ;;
     emit (time_sleep 1) ;;
     prediction <- predict_crop model features ;;
     match prediction with
     | Some label =>
         shown <- truth_value label ;;
         if shown then
           titled <- prediction_title title label ;;
           emit (st_success (recommended titled)) ;;
           emit (st_markdown (based_on f))
         else ret tt
     | None => ret tt
     end)
    (emit (st_error generic_error))
  = (inference_value title model features, inference_trace title model f features).
Proof.
  unfold inference_trace, inference_value, predict_crop.
  destruct (predict model [features]) as [[label|[[]|e1] [text|e2]]|e];
    try destruct label; try destruct e1; try destruct e2; reflexivity.
Qed.

Lemma try_body_non_numeric (f : Form.t) :
  Exists (non_numeric float) (Form.fields f) ->
  try_body float title model f = raise ValueError.
Proof.
  intros H. unfold try_body. rewrite (to_features_raises _ _ H). reflexivity.
Qed.

Lemma on_predict_non_numeric (f : Form.t) :
  Exists (non_numeric float) (Form.fields f) ->
  on_predict float title model f = (Done tt, [st_error generic_error]).
Proof.
  intros H. unfold on_predict. rewrite (try_body_non_numeric _ H). reflexivity.
Qed.

(** No field is rejected and one is empty: the "is required" messages. *)
Lemma on_predict_missing (f : Form.t) :
  Forall (fun x => ~ non_numeric float x) (Form.fields f) ->
  Exists (fun x => x = "") (Form.fields f) ->
  on_predict float title model f =
  show_issues (validate_inputs (map (slot float) (Form.fields f))).
Proof.
  intros Hok Hex. unfold on_predict, try_body.
  rewrite (to_features_accepted _ _ Hok), bind_ret.
  apply Exists_exists in Hex as (x & Hin & ->).
  apply In_nth_error in Hin as [i Hi].
  destruct (field_index _ _ _ Hi) as (name & r & Hname & _).
  assert (Hm : In (required name) (validate_inputs (map (slot float) (Form.fields f)))).
  { apply (validate_inputs_missing _ i PyNone name); auto.
    rewrite nth_error_map, Hi. reflexivity. }
  destruct (validate_inputs (map (slot float) (Form.fields f))) as [|m ms]; [contradiction|].
  cbn [nonempty]. rewrite show_issues_spec. reflexivity.
Qed.

(** Every field is read as a float: the range messages, or inference. *)
Lemma on_predict_present (f : Form.t) (vs : list spec_float) :
  Forall2 (reads_as float) (Form.fields f) vs ->
  on_predict float title model f =
  if nonempty (range_errors_of vs) then show_issues (range_errors_of vs)
  else (inference_value title model (map PyFloat vs), inference_trace title model f (map PyFloat vs)).
Proof.
  intros H. unfold on_predict, try_body.
  rewrite (to_features_accepted _ _ (reads_not_non_numeric _ _ _ H)), bind_ret.
  rewrite (slots_read _ _ _ H), validate_inputs_floats. cbn [nonempty].
  rewrite range_loop_floats, bind_ret. cbn [app]. fold (range_errors_of vs).
  destruct (range_errors_of vs) as [|m ms]; cbn [nonempty].
  - apply inference_spec.
  - rewrite show_issues_spec. reflexivity.
Qed.

End Handler.

(** ** Messages of the seven fields *)

Lemma nth_error_combine {A B : Type} (l : list A) (l' : list B) (i : nat) (a : A) (b : B) :
  nth_error l i = Some a -> nth_error l' i = Some b ->
  nth_error (combine l l') i = Some (a, b).
Proof.
  revert l l'. induction i as [|i IH]; intros [|x l] [|y l'] Ha Hb; try discriminate; simpl in *.
  - congruence.
  - auto.
Qed.

Lemma required_messages : map required input_names =
  ["Nitrogen is required"; "Phosphorus is required"; "Potassium is required";
   "Temperature is required"; "Humidity is required"; "pH Level is required";
   "Rainfall is required"].
Proof. reflexivity. Qed.

Lemma range_messages : map range_message_of ranges =
  ["Nitrogen must be between 0 and 140"; "Phosphorus must be between 0 and 140";
   "Potassium must be between 0 and 200"; "Temperature must be between 0 and 50";
   "Humidity must be between 0 and 100"; "pH must be between 0 and 14";
   "Rainfall must be between 0 and 300"].
Proof. reflexivity. Qed.

Lemma required_distinct : NoDup (map required input_names).
Proof. rewrite required_messages. distinct_strings. Qed.

Lemma range_distinct : NoDup (map range_message_of ranges).
Proof. rewrite range_messages. distinct_strings. Qed.

Lemma required_warnings_distinct :
  NoDup (map (fun name => warning (required name)) input_names).
Proof. cbv [map input_names]. distinct_strings. Qed.

Lemma range_warnings_distinct :
  NoDup (map (fun r => warning (range_message_of r)) ranges).
Proof. cbv [map ranges]. distinct_strings. Qed.

Lemma in_combine_nth_error {A B : Type} (l : list A) (l' : list B) (a : A) (b : B) :
  In (a, b) (combine l l') ->
  exists j, nth_error l j = Some a /\ nth_error l' j = Some b.
Proof.
  revert l'. induction l as [|x l IH]; intros [|y l'] H; simpl in H; try contradiction.
  destruct H as [H|H].
  - injection H as -> ->. exists 0. auto.
  - destruct (IH _ H) as (j & Ha & Hb). exists (S j). auto.
Qed.

Lemma markdowns_show_issues (msgs : list string) :
  markdowns (trace (show_issues msgs)) = map warning msgs.
Proof. rewrite show_issues_spec. cbn [trace snd]. apply markdowns_issues. Qed.

Lemma model_calls_show_issues (msgs : list string) :
  model_calls (trace (show_issues msgs)) = [].
Proof.
  rewrite show_issues_spec. cbn [trace snd].
  induction msgs as [|m msgs IH]; simpl; auto.
Qed.

Lemma loads_show_issues (msgs : list string) :
  loads (trace (show_issues msgs)) = [].
Proof.
  rewrite show_issues_spec. cbn [trace snd].
  induction msgs as [|m msgs IH]; simpl; auto.
Qed.

(** The message of the field at [i], among those of the fields that fail
    the test [sel]: once if the field fails it, never if it passes. *)
Lemma count_field_message {V R : Type} (sel : V * R -> bool) (msg : R -> string)
    (vs : list V) (rs : list R) (i : nat) (v : V) (r : R) :
  NoDup (map msg rs) -> nth_error vs i = Some v -> nth_error rs i = Some r ->
  count_occ string_dec (map (fun vr => msg (snd vr)) (filter sel (combine vs rs))) (msg r)
  = if sel (v, r) then 1 else 0.
Proof.
  intros Hnd Hv Hr.
  apply (count_selected sel (fun vr => msg (snd vr)) (combine vs rs) i (v, r)).
  - apply (NoDup_map_combine msg). exact Hnd.
  - apply nth_error_combine; assumption.
Qed.

Lemma count_field_warning {V R : Type} (sel : V * R -> bool) (msg : R -> string)
    (vs : list V) (rs : list R) (i : nat) (v : V) (r : R) :
  NoDup (map (fun r => warning (msg r)) rs) ->
  nth_error vs i = Some v -> nth_error rs i = Some r ->
  count_occ string_dec
    (map warning (map (fun vr => msg (snd vr)) (filter sel (combine vs rs))))
    (warning (msg r))
  = if sel (v, r) then 1 else 0.
Proof.
  intros Hnd Hv Hr. rewrite map_map.
  exact (count_field_message sel (fun r => warning (msg r)) vs rs i v r Hnd Hv Hr).
Qed.

(** ** The validator *)

Local Open Scope string_scope.

(** C6: for each of the seven fields, a missing value makes
    [validate_inputs] return that field's "<field> is required" message
    exactly once, and every message it returns is the "is required"
    message of a field whose value is missing: there is no duplicate and no
    other message for the field. *)
Theorem C6_missing_value_one_required_message :
  forall (inputs : list pyval) (i : nat) (value : pyval) (name : string),
    nth_error inputs i = Some value ->
    nth_error input_names i = Some name ->
    is_missing value = true ->
    count_occ string_dec (validate_inputs inputs) (name ++ " is required") = 1 /\
    (forall msg, In msg (validate_inputs inputs) ->
       exists j value' name',
         nth_error inputs j = Some value' /\ nth_error input_names j = Some name' /\
         is_missing value' = true /\ msg = name' ++ " is required").
Proof.
  intros inputs i value name Hv Hn Hm. rewrite validate_inputs_spec. split.
  - change (name ++ " is required") with (required name).
    rewrite (count_field_message (fun vn => is_missing (fst vn)) required
               inputs input_names i value name required_distinct Hv Hn).
    cbn [fst]. rewrite Hm. reflexivity.
  - intros msg Hin. apply in_map_iff in Hin as ([value' name'] & <- & Hin).
    apply filter_In in Hin as [Hin Hm']. cbn [fst snd] in *.
    destruct (in_combine_nth_error _ _ _ _ Hin) as (j & Hj & Hj').
    exists j, value', name'. auto.
Qed.

Lemma C6_witness :
  count_occ string_dec
    (validate_inputs [PyFloat (PyFloat.of_int 90); PyNone; PyFloat (PyFloat.of_int 43);
                      PyFloat (PyFloat.of_int 20); PyStr ""; PyFloat (PyFloat.of_int 6);
                      PyFloat (PyFloat.of_int 202)])
    "Phosphorus is required" = 1.
Proof.
  apply (C6_missing_value_one_required_message _ 1 PyNone "Phosphorus"); reflexivity.
Defined.

(** ** Text that is not a number *)

(** C4: when some field holds non-numeric text (not empty, and rejected by
    [float]), the conversion raises before the validator and the range loop
    get a feature list, and the handler shows the single generic "valid
    numbers" error: no per-field message is shown and the model is not
    called. *)
Theorem C4_non_numeric_gives_generic_error :
  forall (float : string -> option spec_float) (title : string -> string)
         (model : Model) (f : Form.t),
    Exists (non_numeric float) (Form.fields f) ->
    to_features float (Form.fields f) = raise ValueError /\
    on_predict float title model f =
      (Done tt, [st_error "Please ensure all inputs are valid numbers"]) /\
    markdowns (trace (on_predict float title model f)) = [] /\
    model_calls (trace (on_predict float title model f)) = [].
Proof.
  intros float title model f H.
  split; [exact (to_features_raises float _ H)|].
  rewrite (on_predict_non_numeric float title model f H). repeat split.
Qed.

Lemma C4_witness :
  on_predict PyFloat.float PyStr.title rice_model (Form.make "90" "42" "43" "20.8" "82" "abc" "500") =
  (Done tt, [st_error "Please ensure all inputs are valid numbers"]).
Proof.
  refine (proj1 (proj2 (C4_non_numeric_gives_generic_error PyFloat.float PyStr.title rice_model
                          (Form.make "90" "42" "43" "20.8" "82" "abc" "500") _))).
  do 5 apply Exists_cons_tl. apply Exists_cons_hd.
  split; [discriminate|reflexivity].
Defined.

(** C10: non-numeric text in one field suppresses every per-field message
    of the submission, the "is required" messages of the empty fields
    included: the body of the [try] raises [ValueError] in the conversion,
    before [validate_inputs] is called and before any event, so that the
    only thing shown is the generic error. *)
Theorem C10_non_numeric_suppresses_field_messages :
  forall (float : string -> option spec_float) (title : string -> string)
         (model : Model) (f : Form.t),
    Exists (non_numeric float) (Form.fields f) ->
    try_body float title model f = raise ValueError /\
    errors (trace (on_predict float title model f)) = [generic_error] /\
    (forall msg, ~ In (st_markdown msg) (trace (on_predict float title model f))) /\
    (forall i name,
       nth_error (Form.fields f) i = Some "" ->
       nth_error input_names i = Some name ->
       count_occ string_dec (markdowns (trace (on_predict float title model f)))
         (warning (name ++ " is required")) = 0).
Proof.
  intros float title model f H.
  split; [exact (try_body_non_numeric float title model f H)|].
  rewrite (on_predict_non_numeric float title model f H). cbn [trace snd].
  split; [reflexivity|]. split.
  - intros msg [Hin|[]]. discriminate.
  - reflexivity.
Qed.

Lemma C10_witness :
  errors (trace (on_predict PyFloat.float PyStr.title rice_model
                   (Form.make "" "4 2" "43" "20.8" "" "6.5" "202.9"))) = [generic_error] /\
  count_occ string_dec
    (markdowns (trace (on_predict PyFloat.float PyStr.title rice_model
                         (Form.make "" "4 2" "43" "20.8" "" "6.5" "202.9"))))
    (warning "Nitrogen is required") = 0.
Proof.
  assert (H : Exists (non_numeric PyFloat.float)
                (Form.fields (Form.make "" "4 2" "43" "20.8" "" "6.5" "202.9"))).
  { apply Exists_cons_tl. apply Exists_cons_hd. split; [discriminate|reflexivity]. }
  destruct (C10_non_numeric_suppresses_field_messages PyFloat.float PyStr.title rice_model _ H)
    as (_ & Herr & _ & Hreq).
  split; [exact Herr|].
  exact (Hreq 0 "Nitrogen" eq_refl eq_refl).
Defined.

(** ** Empty fields *)

Lemma generic_not_in_issues (msgs : list string) :
  ~ In (st_error generic_error) (trace (show_issues msgs)).
Proof.
  rewrite show_issues_spec. cbn [trace snd]. intros [H|H]; [discriminate|].
  apply in_map_iff in H as (m & Hm & _). discriminate.
Qed.

(** C9: an empty field is a missing value, not non-numeric text. The
    conversion maps the empty string to [None] without calling [float];
    when no other field is rejected, the field's "is required" message is
    shown exactly once; and whenever the generic "valid numbers" error is
    shown, it is another, non-empty field that [float] rejected. *)
Theorem C9_empty_field_is_missing :
  forall (float : string -> option spec_float) (title : string -> string)
         (model : Model) (f : Form.t)
         (i : nat) (name : string),
    nth_error (Form.fields f) i = Some "" ->
    nth_error input_names i = Some name ->
    to_feature float "" = ret PyNone /\
    (Forall (fun x => ~ non_numeric float x) (Form.fields f) ->
     count_occ string_dec (markdowns (trace (on_predict float title model f)))
       (warning (name ++ " is required")) = 1 /\
     ~ In (st_error generic_error) (trace (on_predict float title model f))) /\
    (In (st_error generic_error) (trace (on_predict float title model f)) ->
     exists j x, j <> i /\ nth_error (Form.fields f) j = Some x /\ non_numeric float x).
Proof.
  intros float title model f i name Hi Hn.
  assert (Hex : Exists (fun x => x = "") (Form.fields f)).
  { apply Exists_exists. exists "". split; [eapply nth_error_In; eassumption|reflexivity]. }
  assert (Hshown : Forall (fun x => ~ non_numeric float x) (Form.fields f) ->
          count_occ string_dec (markdowns (trace (on_predict float title model f)))
            (warning (name ++ " is required")) = 1 /\
          ~ In (st_error generic_error) (trace (on_predict float title model f))).
  { intros Hok. rewrite (on_predict_missing float title model f Hok Hex). split.
    - rewrite markdowns_show_issues, validate_inputs_spec.
      change (name ++ " is required") with (required name).
      rewrite (count_field_warning (fun vn => is_missing (fst vn)) required
                 (map (slot float) (Form.fields f)) input_names i PyNone name
                 required_warnings_distinct); auto.
      rewrite nth_error_map, Hi. reflexivity.
    - apply generic_not_in_issues. }
  split; [reflexivity|]. split; [exact Hshown|].
  intros Hin. destruct (Exists_or_Forall_numeric float (Form.fields f)) as [Hbad|Hok].
  - apply Exists_exists in Hbad as (x & Hx & Hbad).
    apply In_nth_error in Hx as [j Hj]. exists j, x. repeat split; try apply Hbad; auto.
    intros ->. rewrite Hi in Hj. destruct Hbad as [Hne _]. congruence.
  - destruct (Hshown Hok) as [_ Hnot]. contradiction.
Qed.

Lemma C9_witness :
  count_occ string_dec
    (markdowns (trace (on_predict PyFloat.float PyStr.title rice_model
                         (Form.make "90" "42" "43" "" "82" "6.5" "202.9"))))
    (warning "Temperature is required") = 1.
Proof.
  refine (proj1 (proj1 (proj2 (C9_empty_field_is_missing PyFloat.float PyStr.title rice_model
            (Form.make "90" "42" "43" "" "82" "6.5" "202.9") 3 "Temperature"
            eq_refl eq_refl)) _)).
  repeat (apply Forall_cons;
          [intros [Hne Hnone]; try discriminate; apply Hne; reflexivity|]).
  apply Forall_nil.
Defined.

(** ** Values out of range *)

(** In every range the maximum is not below the minimum. *)
Lemma ranges_ordered :
  Forall (fun r : Z * Z * string =>
            let '(min_val, max_val, _) := r in
            SFltb (PyFloat.of_int max_val) (PyFloat.of_int min_val) = false) ranges.
Proof. repeat constructor. Qed.

Lemma range_at (i : nat) (min_val max_val : Z) (name : string) :
  nth_error ranges i = Some (min_val, max_val, name) ->
  SFltb (PyFloat.of_int max_val) (PyFloat.of_int min_val) = false.
Proof.
  intros H. apply nth_error_In in H.
  exact (proj1 (Forall_forall _ _) ranges_ordered _ H).
Qed.

(** A value [==] to a bound of its range is not outside the range. *)
Lemma bound_not_outside (i : nat) (v : spec_float) (min_val max_val : Z) (name : string) :
  nth_error ranges i = Some (min_val, max_val, name) ->
  PyFloat.eq_int v min_val = true \/ PyFloat.eq_int v max_val = true ->
  outside v (min_val, max_val, name) = false.
Proof.
  intros Hr H. pose proof (range_at _ _ _ _ Hr) as Hord.
  unfold outside, PyFloat.lt_int, PyFloat.gt_int, PyFloat.eq_int in *.
  destruct H as [H|H].
  - destruct (FloatFacts.SFeqb_le _ _ H) as [_ Hle].
    rewrite (FloatFacts.SFleb_not_gt _ _ Hle). cbn [orb].
    destruct (FloatFacts.SFeqb_compare _ _ (PyFloat.of_int max_val) H) as [_ Hc].
    unfold SFltb in *. rewrite Hc. exact Hord.
  - destruct (FloatFacts.SFeqb_le _ _ H) as [Hle _].
    rewrite (FloatFacts.SFleb_not_gt _ _ Hle), orb_false_r.
    destruct (FloatFacts.SFeqb_compare _ _ (PyFloat.of_int min_val) H) as [Hc _].
    unfold SFltb in *. rewrite Hc. exact Hord.
Qed.

(** A value within its range, bounds included, is not outside it. *)
Lemma within_not_outside (v : spec_float) (min_val max_val : Z) (name : string) :
  PyFloat.ge_int v min_val = true -> PyFloat.le_int v max_val = true ->
  outside v (min_val, max_val, name) = false.
Proof.
  unfold outside, PyFloat.ge_int, PyFloat.le_int, PyFloat.lt_int, PyFloat.gt_int.
  intros Hlo Hhi.
  rewrite (FloatFacts.SFleb_not_gt _ _ Hlo), (FloatFacts.SFleb_not_gt _ _ Hhi).
  reflexivity.
Qed.

Section Present.

Variable float : string -> option spec_float.
Variable title : string -> string.
Variable model : Model.

Lemma markdowns_inference (f : Form.t) (features : list pyval) (msg : string) :
  count_occ string_dec (markdowns (inference_trace title model f features)) (warning msg) = 0.
Proof.
  unfold inference_trace. destruct (predict model [features]) as [prediction|e]; [|reflexivity].
  destruct (rendering title prediction) as [[text|]|[]]; reflexivity.
Qed.

Lemma times_shown_present (f : Form.t) (vs : list spec_float) (msg : string) :
  Forall2 (reads_as float) (Form.fields f) vs ->
  times_shown float title model f msg =
  count_occ string_dec (map warning (range_errors_of vs)) (warning msg).
Proof.
  intros H. unfold times_shown. rewrite (on_predict_present float title model f vs H).
  destruct (range_errors_of vs) as [|m ms] eqn:E; cbn [nonempty].
  - cbn [trace snd]. apply markdowns_inference.
  - rewrite markdowns_show_issues. reflexivity.
Qed.

Lemma times_shown_range (f : Form.t) (vs : list spec_float) (i : nat)
    (v : spec_float) (r : Z * Z * string) :
  Forall2 (reads_as float) (Form.fields f) vs ->
  nth_error vs i = Some v -> nth_error ranges i = Some r ->
  times_shown float title model f (range_message_of r) = if outside v r then 1 else 0.
Proof.
  intros H Hv Hr. rewrite (times_shown_present f vs _ H). unfold range_errors_of.
  apply (count_field_warning (fun vr => outside (fst vr) (snd vr)) range_message_of
           vs ranges i v r range_warnings_distinct Hv Hr).
Qed.

End Present.

(** C5: when all seven fields are present and numeric, a field whose value
    is strictly below its minimum or strictly above its maximum gets
    exactly one "<field> must be between min and max" message, and a value
    equal to the minimum or to the maximum gets none. The ranges are those
    of [ranges]: nitrogen [0,140], phosphorus [0,140], potassium [0,200],
    temperature [0,50], humidity [0,100], pH [0,14], rainfall [0,300]. *)
Theorem C5_out_of_range_one_message :
  forall (float : string -> option spec_float) (title : string -> string)
         (model : Model) (f : Form.t)
         (vs : list spec_float) (i : nat) (v : spec_float)
         (min_val max_val : Z) (name : string),
    Forall2 (reads_as float) (Form.fields f) vs ->
    nth_error vs i = Some v ->
    nth_error ranges i = Some (min_val, max_val, name) ->
    (PyFloat.lt_int v min_val = true \/ PyFloat.gt_int v max_val = true ->
     times_shown float title model f
       (name ++ " must be between " ++ PyStr.of_int min_val ++ " and "
             ++ PyStr.of_int max_val) = 1) /\
    (PyFloat.eq_int v min_val = true \/ PyFloat.eq_int v max_val = true ->
     times_shown float title model f
       (name ++ " must be between " ++ PyStr.of_int min_val ++ " and "
             ++ PyStr.of_int max_val) = 0).
Proof.
  intros float title model f vs i v min_val max_val name H Hv Hr.
  change (name ++ " must be between " ++ PyStr.of_int min_val ++ " and "
               ++ PyStr.of_int max_val)
    with (range_message_of (min_val, max_val, name)).
  rewrite (times_shown_range float title model f vs i v _ H Hv Hr). split.
  - intros Hout. unfold outside.
    destruct Hout as [-> | ->]; [|rewrite orb_true_r]; reflexivity.
  - intros Heq. rewrite (bound_not_outside i v _ _ _ Hr Heq). reflexivity.
Qed.

Lemma C5_witness :
  times_shown PyFloat.float PyStr.title rice_model
    (Form.make "90" "140.5" "43" "20.8" "82" "6.5" "202.9")
    "Phosphorus must be between 0 and 140" = 1 /\
  times_shown PyFloat.float PyStr.title rice_model
    (Form.make "90" "140.0" "43" "20.8" "82" "6.5" "202.9")
    "Phosphorus must be between 0 and 140" = 0.
Proof.
  split.
  - refine (proj1 (C5_out_of_range_one_message PyFloat.float PyStr.title rice_model
                     (Form.make "90" "140.5" "43" "20.8" "82" "6.5" "202.9")
                     (read_all PyFloat.float
                        (Form.make "90" "140.5" "43" "20.8" "82" "6.5" "202.9")) 1 _
                     0 140 "Phosphorus" _ _ eq_refl) _).
    + all_read.
    + vm_compute. reflexivity.
    + right. vm_compute. reflexivity.
  - refine (proj2 (C5_out_of_range_one_message PyFloat.float PyStr.title rice_model
                     (Form.make "90" "140.0" "43" "20.8" "82" "6.5" "202.9")
                     (read_all PyFloat.float
                        (Form.make "90" "140.0" "43" "20.8" "82" "6.5" "202.9")) 1 _
                     0 140 "Phosphorus" _ _ eq_refl) _).
    + all_read.
    + vm_compute. reflexivity.
    + right. vm_compute. reflexivity.
Defined.

(** ** The four outcomes of a submission *)

Section Outcomes.

Variable float : string -> option spec_float.
Variable title : string -> string.
Variable model : Model.

Lemma accepted_cases (xs : list string) :
  Forall (fun x => ~ non_numeric float x) xs ->
  Exists (fun x => x = "") xs \/ exists vs, Forall2 (reads_as float) xs vs.
Proof.
  induction 1 as [|x xs Hx _ [IH|[vs IH]]]; [right; exists []; constructor|auto|].
  destruct (field_cases float x) as [->|[[v Hv]|Hn]]; [auto| |contradiction].
  right. exists (v :: vs). constructor; assumption.
Qed.

Lemma on_predict_cases (f : Form.t) :
  (Exists (non_numeric float) (Form.fields f) /\
   on_predict float title model f = (Done tt, [st_error generic_error])) \/
  (Forall (fun x => ~ non_numeric float x) (Form.fields f) /\
   Exists (fun x => x = "") (Form.fields f) /\
   on_predict float title model f =
     show_issues (validate_inputs (map (slot float) (Form.fields f)))) \/
  (exists vs, Forall2 (reads_as float) (Form.fields f) vs /\
     range_errors_of vs <> [] /\
     on_predict float title model f = show_issues (range_errors_of vs)) \/
  (exists vs, Forall2 (reads_as float) (Form.fields f) vs /\
     range_errors_of vs = [] /\
     on_predict float title model f =
     (inference_value title model (map PyFloat vs),
      inference_trace title model f (map PyFloat vs))).
Proof.
  destruct (Exists_or_Forall_numeric float (Form.fields f)) as [Hbad|Hok].
  { left. split; [exact Hbad|]. apply on_predict_non_numeric. exact Hbad. }
  right. destruct (accepted_cases _ Hok) as [Hempty|[vs Hvs]].
  { left. repeat split; auto. apply on_predict_missing; assumption. }
  right. pose proof (on_predict_present float title model f vs Hvs) as E.
  destruct (range_errors_of vs) as [|m ms] eqn:Er; cbn [nonempty] in E.
  - right. exists vs. rewrite Er. auto.
  - left. exists vs. rewrite Er. repeat split; auto. discriminate.
Qed.

(** The model is called at most once, and only in the last case. *)
Lemma model_calls_inference (f : Form.t) (features : list pyval) :
  model_calls (inference_trace title model f features) = [[features]].
Proof.
  unfold inference_trace. destruct (predict model [features]) as [prediction|e]; [|reflexivity].
  destruct (rendering title prediction) as [[text|]|[]]; reflexivity.
Qed.

Lemma loads_on_predict (f : Form.t) : loads (trace (on_predict float title model f)) = [].
Proof.
  destruct (on_predict_cases f)
    as [[_ E]|[(_ & _ & E)|[(vs & _ & _ & E)|(vs & _ & _ & E)]]]; rewrite E.
  - reflexivity.
  - apply loads_show_issues.
  - apply loads_show_issues.
  - cbn [trace snd]. unfold inference_trace.
    destruct (predict model [map PyFloat vs]) as [prediction|e]; [|reflexivity].
    destruct (rendering title prediction) as [[text|]|[]]; reflexivity.
Qed.

(** When the model is called, every field was read as a float, no value
    is below its minimum or above its maximum, and the call is the only
    one. *)
Lemma predict_reached (f : Form.t) :
  model_calls (trace (on_predict float title model f)) <> [] ->
  exists vs,
    Forall2 (reads_as float) (Form.fields f) vs /\
    Forall2 (fun v r => outside v r = false) vs ranges /\
    on_predict float title model f =
    (inference_value title model (map PyFloat vs),
     inference_trace title model f (map PyFloat vs)).
Proof.
  destruct (on_predict_cases f)
    as [[_ E]|[(_ & _ & E)|[(vs & _ & _ & E)|(vs & Hvs & Hr & E)]]]; rewrite E; intros H.
  - exfalso. apply H. reflexivity.
  - exfalso. apply H. apply model_calls_show_issues.
  - exfalso. apply H. apply model_calls_show_issues.
  - exists vs. repeat split; auto.
    assert (Hlen : List.length vs = List.length ranges).
    { apply Forall2_length in Hvs. rewrite <- Hvs. reflexivity. }
    clear - Hr Hlen. unfold range_errors_of in Hr. revert Hr Hlen.
    generalize ranges. induction vs as [|v vs IH]; intros [|r rs] Hr Hlen; try discriminate.
    + constructor.
    + simpl in Hr. destruct (outside v r) eqn:Eo; [discriminate|].
      constructor; auto.
Qed.

End Outcomes.

(** ** The validation contract *)

Lemma is_missing_slot (float : string -> option spec_float) (x : string) :
  ~ non_numeric float x -> is_missing (slot float x) = negb (PyStr.truthy x).
Proof.
  intros H. unfold slot. destruct (PyStr.truthy x) eqn:Hx; [|reflexivity].
  destruct (float x) eqn:Hv; [reflexivity|].
  exfalso. apply H. split; [apply truthy_true; exact Hx|exact Hv].
Qed.

Lemma validate_slots (float : string -> option spec_float) (f : Form.t) :
  Forall (fun x => ~ non_numeric float x) (Form.fields f) ->
  validate_inputs (map (slot float) (Form.fields f)) = missing_messages f.
Proof.
  intros H. rewrite validate_inputs_spec. unfold missing_messages.
  generalize input_names. induction H as [|x xs Hx _ IH]; intros [|name names];
    try reflexivity.
  cbn [map combine filter fst snd]. rewrite (is_missing_slot _ _ Hx).
  destruct (negb (PyStr.truthy x)); cbn [map snd]; rewrite IH; reflexivity.
Qed.

(** Values all within their ranges give no range message. *)
Lemma within_range_errors (vs : list spec_float) :
  Forall2 (fun v r => within v r = true) vs ranges -> range_errors_of vs = [].
Proof.
  unfold range_errors_of. generalize ranges.
  intros rs H. induction H as [|v [[min_val max_val] name] vs rs Hv _ IH]; [reflexivity|].
  cbn [combine filter fst snd]. unfold within in Hv. apply andb_prop in Hv as [Hlo Hhi].
  rewrite (within_not_outside _ _ _ _ Hlo Hhi). exact IH.
Qed.

(** Each field has its "is required" message once among the messages of
    the empty fields when it is empty, and not at all otherwise. *)
Lemma missing_messages_count (f : Form.t) (i : nat) (x name : string) :
  nth_error (Form.fields f) i = Some x -> nth_error input_names i = Some name ->
  count_occ string_dec (missing_messages f) (name ++ " is required")
  = if PyStr.truthy x then 0 else 1.
Proof.
  intros Hx Hn. unfold missing_messages.
  change (name ++ " is required") with (required name).
  rewrite (count_field_message (fun xn => negb (PyStr.truthy (fst xn))) required
             (Form.fields f) input_names i x name required_distinct Hx Hn).
  cbn [fst]. destruct (PyStr.truthy x); reflexivity.
Qed.

(** Each field has its range message once among the range messages when
    its value fails the test of the loop, and not at all otherwise. *)
Lemma range_errors_count (vs : list spec_float) (i : nat) (v : spec_float)
    (r : Z * Z * string) :
  nth_error vs i = Some v -> nth_error ranges i = Some r ->
  count_occ string_dec (range_errors_of vs) (range_message_of r)
  = if outside v r then 1 else 0.
Proof.
  intros Hv Hr. unfold range_errors_of.
  exact (count_field_message (fun vr => outside (fst vr) (snd vr)) range_message_of
           vs ranges i v r range_distinct Hv Hr).
Qed.

(** C2, as amended: the handler has four outcomes. If some non-empty field
    is rejected by [float], only the generic error is shown. Otherwise, if
    some field is empty, the issues shown are the "is required" messages of
    the empty fields, one each, in field order, and nothing is said of the
    range of the other fields. If every field is read as a float and some
    value is below its minimum or above its maximum, the issues shown are
    the "must be between" messages of those fields, one each, in field
    order. If every field is read as a float within its range, the feature
    list is passed to the model. *)
Theorem C2_validation_outcomes :
  forall (float : string -> option spec_float) (title : string -> string)
         (model : Model) (f : Form.t),
    (Exists (non_numeric float) (Form.fields f) ->
     trace (on_predict float title model f) = [st_error generic_error]) /\
    (Forall (fun x => ~ non_numeric float x) (Form.fields f) ->
     Exists (fun x => x = "") (Form.fields f) ->
     trace (on_predict float title model f) = issues (missing_messages f) /\
     missing_messages f <> [] /\
     (forall i x name,
        nth_error (Form.fields f) i = Some x -> nth_error input_names i = Some name ->
        count_occ string_dec (missing_messages f) (name ++ " is required")
        = if PyStr.truthy x then 0 else 1)) /\
    (forall vs,
       Forall2 (reads_as float) (Form.fields f) vs ->
       Exists (fun vr => outside (fst vr) (snd vr) = true) (combine vs ranges) ->
       trace (on_predict float title model f) = issues (range_errors_of vs) /\
       range_errors_of vs <> [] /\
       (forall i v r,
          nth_error vs i = Some v -> nth_error ranges i = Some r ->
          count_occ string_dec (range_errors_of vs) (range_message_of r)
          = if outside v r then 1 else 0)) /\
    (forall vs,
       Forall2 (reads_as float) (Form.fields f) vs ->
       Forall2 (fun v r => within v r = true) vs ranges ->
       model_calls (trace (on_predict float title model f)) = [[map PyFloat vs]]).
Proof.
  intros float title model f. split; [|split; [|split]].
  - intros H. rewrite (on_predict_non_numeric float title model f H). reflexivity.
  - intros Hok Hempty.
    rewrite (on_predict_missing float title model f Hok Hempty), show_issues_spec,
      (validate_slots _ _ Hok).
    split; [reflexivity|]. split; [|apply missing_messages_count].
    apply Exists_exists in Hempty as (x & Hin & ->).
    apply In_nth_error in Hin as [i Hi].
    destruct (field_index _ _ _ Hi) as (name & r & Hname & _).
    pose proof (missing_messages_count f i "" name Hi Hname) as Hc.
    intros Hnil. rewrite Hnil in Hc. discriminate.
  - intros vs Hvs Hout.
    assert (Hne : range_errors_of vs <> []).
    { apply Exists_exists in Hout as ([v r] & Hin & Ho). cbn [fst snd] in Ho.
      destruct (in_combine_nth_error _ _ _ _ Hin) as (i & Hv & Hr).
      pose proof (range_errors_count vs i v r Hv Hr) as Hc. rewrite Ho in Hc.
      intros Hnil. rewrite Hnil in Hc. discriminate. }
    pose proof (on_predict_present float title model f vs Hvs) as E.
    destruct (range_errors_of vs) as [|m ms] eqn:Er; [contradiction|].
    cbn [nonempty] in E. rewrite E, show_issues_spec, <- Er.
    split; [reflexivity|]. split; [rewrite Er; discriminate|].
    intros i v r. apply range_errors_count.
  - intros vs Hvs Hin.
    pose proof (on_predict_present float title model f vs Hvs) as E.
    rewrite (within_range_errors vs Hin) in E. cbn [nonempty] in E.
    rewrite E. cbn [trace snd]. apply model_calls_inference.
Qed.

(** C2, as the specification words it, fails on a submission with a missing
    field and an out-of-range one: nitrogen is empty and phosphorus is 500,
    and only "Nitrogen is required" is shown. *)
Lemma C2_counterexample :
  markdowns (trace (on_predict PyFloat.float PyStr.title rice_model
                      (Form.make "" "500" "43" "20.8" "82" "6.5" "202.9")))
  = [warning "Nitrogen is required"] /\
  violations PyFloat.float (Form.make "" "500" "43" "20.8" "82" "6.5" "202.9")
  = ["Nitrogen is required"; "Phosphorus must be between 0 and 140"] /\
  ~ reports_every_violation PyFloat.float PyStr.title rice_model
      (Form.make "" "500" "43" "20.8" "82" "6.5" "202.9").
Proof.
  split; [vm_compute; reflexivity|]. split; [vm_compute; reflexivity|].
  intros H. vm_compute in H. discriminate.
Qed.

(** ** Inference *)

(** C7, as amended: when all seven values are present and within range,
    the feature list reaches the model, in one call; and whenever that call
    returns a str label that is not empty, the handler returns after
    showing the label, title-cased by [str.title], and the echo of the seven
    inputs as they were typed. *)
Theorem C7_valid_submission_is_predicted_and_rendered :
  forall (float : string -> option spec_float) (title : string -> string)
         (model : Model) (f : Form.t) (vs : list spec_float),
    Forall2 (reads_as float) (Form.fields f) vs ->
    Forall2 (fun v r => within v r = true) vs ranges ->
    model_calls (trace (on_predict float title model f)) = [[map PyFloat vs]] /\
    (forall label,
       predict model [map PyFloat vs] = Returns (ScalarStr label) -> label <> "" ->
       on_predict float title model f =
       (Done tt,
        [st_spinner "Analyzing soil and climate parameters..."; time_sleep 1;
         model_predict [map PyFloat vs];
         st_success ("### Recommended Crop: **" ++ title label ++ "** 🌱");
         st_markdown ("
                            This recommendation is based on:
                            - Nitrogen: " ++ Form.n f ++ " mg/kg
                            - Phosphorus: " ++ Form.p f ++ " mg/kg
                            - Potassium: " ++ Form.k f ++ " mg/kg
                            - Temperature: " ++ Form.temperature f ++ "°C
                            - Humidity: " ++ Form.humidity f ++ "%
                            - pH Level: " ++ Form.ph f ++ "
                            - Rainfall: " ++ Form.rainfall f ++ " mm
                            ")])).
Proof.
  intros float title model f vs Hvs Hin.
  pose proof (on_predict_present float title model f vs Hvs) as E.
  rewrite (within_range_errors vs Hin) in E. cbn [nonempty] in E.
  rewrite E. cbn [trace snd]. split; [apply model_calls_inference|].
  intros label Hl Hne. unfold inference_trace, inference_value. rewrite Hl.
  cbn [rendering]. apply truthy_true in Hne. rewrite Hne. reflexivity.
Qed.

Lemma C7_witness :
  on_predict PyFloat.float PyStr.title rice_model valid_form =
  (Done tt,
   [st_spinner "Analyzing soil and climate parameters..."; time_sleep 1;
    model_predict [map PyFloat (read_all PyFloat.float valid_form)];
    st_success "### Recommended Crop: **Rice** 🌱";
    st_markdown "
                            This recommendation is based on:
                            - Nitrogen: 90 mg/kg
                            - Phosphorus: 42 mg/kg
                            - Potassium: 43 mg/kg
                            - Temperature: 20.8°C
                            - Humidity: 82%
                            - pH Level: 6.5
                            - Rainfall: 202.9 mm
                            "]).
Proof.
  refine (proj2 (C7_valid_submission_is_predicted_and_rendered PyFloat.float PyStr.title
                   rice_model valid_form (read_all PyFloat.float valid_form) _ _)
            "rice" eq_refl _).
  - all_read.
  - repeat (apply Forall2_cons; [vm_compute; reflexivity|]). apply Forall2_nil.
  - discriminate.
Defined.

(** C7, as the specification words it, fails when the call succeeds with an
    empty label: the model is called and returns, and nothing is rendered. *)
Lemma C7_counterexample :
  predict blank_model [map PyFloat (read_all PyFloat.float valid_form)]
  = Returns (ScalarStr "") /\
  trace (on_predict PyFloat.float PyStr.title blank_model valid_form) =
  [st_spinner "Analyzing soil and climate parameters..."; time_sleep 1;
   model_predict [map PyFloat (read_all PyFloat.float valid_form)]] /\
  ~ renders_every_prediction PyFloat.float PyStr.title blank_model valid_form.
Proof.
  split; [reflexivity|]. split; [vm_compute; reflexivity|].
  intros H.
  destruct (H (read_all PyFloat.float valid_form) "") as (_ & Hs & _).
  - all_read.
  - repeat (apply Forall2_cons; [vm_compute; reflexivity|]). apply Forall2_nil.
  - reflexivity.
  - vm_compute in Hs. intuition discriminate.
Qed.

(** ** The range check and NaN *)

Lemma bounds_not_nan :
  Forall (fun r : Z * Z * string =>
            let '(min_val, max_val, _) := r in
            PyFloat.of_int min_val <> S754_nan /\ PyFloat.of_int max_val <> S754_nan) ranges.
Proof. repeat constructor; discriminate. Qed.

(** Off NaN, the test of the loop is the negation of being within range. *)
Lemma outside_false_within (v : spec_float) (r : Z * Z * string) :
  v <> S754_nan -> In r ranges -> outside v r = false -> within v r = true.
Proof.
  intros Hv Hr. destruct r as [[min_val max_val] name]. unfold outside, within.
  intros H. apply orb_false_elim in H as [Hlo Hhi].
  unfold PyFloat.lt_int, PyFloat.gt_int, PyFloat.ge_int, PyFloat.le_int in *.
  destruct (proj1 (Forall_forall _ _) bounds_not_nan _ Hr) as [Hmin Hmax].
  rewrite (FloatFacts.SFltb_false_ge _ _ Hv Hmin Hlo).
  rewrite (FloatFacts.SFltb_false_ge _ _ Hmax Hv Hhi). reflexivity.
Qed.

(** NaN passes the test of the loop for every range, and is within none. *)
Lemma nan_passes (r : Z * Z * string) :
  outside S754_nan r = false /\ within S754_nan r = false.
Proof.
  destruct r as [[min_val max_val] name]. unfold outside, within.
  unfold PyFloat.lt_int, PyFloat.gt_int, PyFloat.ge_int, PyFloat.le_int.
  destruct (FloatFacts.nan_unordered (PyFloat.of_int min_val)) as (-> & _ & _ & ->).
  destruct (FloatFacts.nan_unordered (PyFloat.of_int max_val)) as (_ & -> & _ & _).
  split; reflexivity.
Qed.

(** What the code guarantees before the model is called: every field was
    read as a float and each value is NaN or within its range. *)
Lemma predict_only_if (float : string -> option spec_float) (title : string -> string)
    (model : Model) (f : Form.t) :
  model_calls (trace (on_predict float title model f)) <> [] ->
  exists vs,
    Forall2 (reads_as float) (Form.fields f) vs /\
    Forall2 (fun v r => v = S754_nan \/ within v r = true) vs ranges.
Proof.
  intros H. destruct (predict_reached float title model f H) as (vs & Hvs & Hout & _).
  exists vs. split; [exact Hvs|].
  clear - Hout. assert (Hin : forall r, In r ranges -> In r ranges) by auto.
  revert Hout Hin. generalize ranges at 1 2 4.
  intros rs Hout. induction Hout as [|v r vs rs Hv _ IH]; intros Hin; constructor.
  - destruct v; try (right; apply outside_false_within;
                     [discriminate|apply Hin; left; reflexivity|exact Hv]).
    left. reflexivity.
  - apply IH. intros r' Hr'. apply Hin. right. exact Hr'.
Qed.

(** C1, on the failing input: nitrogen is the text [nan]. [float] reads it
    as NaN, which is neither below 0 nor above 140, so that no range
    message is shown and the feature list, NaN first, is passed to the
    model; yet NaN is not within [0, 140]. *)
Theorem C1_nan_reaches_the_model :
  PyFloat.float "nan" = Some S754_nan /\
  within S754_nan (0%Z, 140%Z, "Nitrogen") = false /\
  model_calls (trace (on_predict PyFloat.float PyStr.title rice_model
                        (Form.make "nan" "42" "43" "20.8" "82" "6.5" "202.9")))
  = [[PyFloat S754_nan
      :: map PyFloat (tl (read_all PyFloat.float valid_form))]] /\
  markdowns (trace (on_predict PyFloat.float PyStr.title rice_model
                      (Form.make "nan" "42" "43" "20.8" "82" "6.5" "202.9")))
  = [based_on (Form.make "nan" "42" "43" "20.8" "82" "6.5" "202.9")].
Proof. repeat split; vm_compute; reflexivity. Qed.

(** ** The inference adapter *)

(** C8: [predict_crop] never raises; it returns the label exactly when the
    call to the model returns it, and returns [None], after showing the
    error, exactly when the call raises; it calls the model once. In the
    handler the model is called at most once per submission, and when that
    call raises the trace ends with the error: there is no second call. *)
Theorem C8_predict_crop_returns_or_reports :
  forall (model : Model) (features : list pyval),
    (exists prediction, value (predict_crop model features) = Done prediction) /\
    (forall label,
       value (predict_crop model features) = Done (Some label) <->
       predict model [features] = Returns label) /\
    (value (predict_crop model features) = Done None <->
     exists e, predict model [features] = Raises e) /\
    (forall e,
       predict model [features] = Raises e ->
       trace (predict_crop model features) =
       [model_predict [features]; st_error ("Error making prediction: " ++ e)]) /\
    model_calls (trace (predict_crop model features)) = [[features]] /\
    (forall (float : string -> option spec_float) (title : string -> string) (f : Form.t),
       (List.length (model_calls (trace (on_predict float title model f))) <= 1)%nat /\
       (forall e,
          In (model_predict [features]) (trace (on_predict float title model f)) ->
          predict model [features] = Raises e ->
          trace (on_predict float title model f) =
          [st_spinner "Analyzing soil and climate parameters..."; time_sleep 1;
           model_predict [features]; st_error ("Error making prediction: " ++ e)])).
Proof.
  intros model features. unfold predict_crop.
  destruct (predict model [features]) as [label|e] eqn:Ep.
  - split; [cbn; eauto|]. split; [|split; [|split; [|split]]].
    + intros label'. cbn. split; congruence.
    + cbn. split; [discriminate|]. intros [e He]. discriminate.
    + discriminate.
    + reflexivity.
    + intros float title f. split.
      * destruct (on_predict_cases float title model f)
          as [[_ E]|[(_ & _ & E)|[(vs & _ & _ & E)|(vs & _ & _ & E)]]]; rewrite E.
        -- cbn. lia.
        -- rewrite model_calls_show_issues. cbn. lia.
        -- rewrite model_calls_show_issues. cbn. lia.
        -- cbn [trace snd]. rewrite model_calls_inference. cbn. lia.
      * discriminate.
  - split; [cbn; eauto|]. split; [|split; [|split; [|split]]].
    + intros label'. cbn. split; discriminate.
    + cbn. split; eauto.
    + intros e' He'. injection He' as <-. reflexivity.
    + reflexivity.
    + intros float title f. split.
      * destruct (on_predict_cases float title model f)
          as [[_ E]|[(_ & _ & E)|[(vs & _ & _ & E)|(vs & _ & _ & E)]]]; rewrite E.
        -- cbn. lia.
        -- rewrite model_calls_show_issues. cbn. lia.
        -- rewrite model_calls_show_issues. cbn. lia.
        -- cbn [trace snd]. rewrite model_calls_inference. cbn. lia.
      * intros e' Hin He'. injection He' as <-.
        assert (Hcalls : In [features] (model_calls (trace (on_predict float title model f)))).
        { unfold model_calls. apply in_flat_map. exists (model_predict [features]).
          split; [exact Hin|left; reflexivity]. }
        destruct (on_predict_cases float title model f)
          as [[_ E]|[(_ & _ & E)|[(vs & _ & _ & E)|(vs & _ & _ & E)]]]; rewrite E in *.
        -- destruct Hcalls.
        -- rewrite model_calls_show_issues in Hcalls. destruct Hcalls.
        -- rewrite model_calls_show_issues in Hcalls. destruct Hcalls.
        -- cbn [trace snd] in *. rewrite model_calls_inference in Hcalls.
           destruct Hcalls as [Hf|[]]. injection Hf as Hf. rewrite Hf.
           unfold inference_trace. rewrite Ep. reflexivity.
Qed.

(** ** The life of the model *)

Lemma main_failed_load (float : string -> option spec_float) (title : string -> string) (e : string)
    (f : Form.t) (clicked : bool) :
  trace (main float title (Raises e) f clicked) =
  [st_markdown "<h1 class='title-text'>🌾 Crop Recommendation System</h1>";
   st_markdown "<p class='subtitle-text'>Powered by Machine Learning with 99% Accuracy</p>";
   pickle_load "lgb_model.pickle";
   st_error ("Error loading model: " ++ e);
   st_error "Failed to load the model. Please check if 'model.pickle' exists."].
Proof. reflexivity. Qed.

Lemma main_loaded (float : string -> option spec_float) (title : string -> string) (model : Model)
    (f : Form.t) (clicked : bool) :
  trace (main float title (Returns (Some model)) f clicked) =
  ([st_markdown "<h1 class='title-text'>🌾 Crop Recommendation System</h1>";
    st_markdown "<p class='subtitle-text'>Powered by Machine Learning with 99% Accuracy</p>";
    pickle_load "lgb_model.pickle"]
   ++ trace render_form
   ++ (if clicked then trace (on_predict float title model f) else []))%list.
Proof.
  unfold main, load_model.
  destruct clicked; [|reflexivity].
  cbn -[on_predict].
  destruct (on_predict float title model f) as [r t]. reflexivity.
Qed.

Lemma loads_app (t t' : list event) : loads (t ++ t')%list = (loads t ++ loads t')%list.
Proof. apply flat_map_app. Qed.

Lemma loads_main (float : string -> option spec_float) (title : string -> string)
    (artifact : outcome (option Model)) (f : Form.t) (clicked : bool) :
  loads (trace (main float title artifact f clicked)) = ["lgb_model.pickle"].
Proof.
  destruct artifact as [[model|]|e]; [|reflexivity|reflexivity].
  rewrite main_loaded, !loads_app.
  destruct clicked; [rewrite loads_on_predict|]; reflexivity.
Qed.

(** C3, as amended: every run of [main] loads the model file exactly once,
    right after the two headers and before any widget is drawn. When the
    load fails, the run shows the two load errors and returns: no widget is
    drawn and the model is never called in that run. The load is repeated
    in every run: a session of [n] runs loads the file [n] times. *)
Theorem C3_model_loaded_in_every_run :
  forall (float : string -> option spec_float) (title : string -> string),
    (forall artifact f clicked,
       loads (trace (main float title artifact f clicked)) = ["lgb_model.pickle"] /\
       exists header1 header2 rest,
         trace (main float title artifact f clicked) =
         st_markdown header1 :: st_markdown header2
           :: pickle_load "lgb_model.pickle" :: rest) /\
    (forall e f clicked,
       errors (trace (main float title (Raises e) f clicked)) =
         ["Error loading model: " ++ e;
          "Failed to load the model. Please check if 'model.pickle' exists."] /\
       widgets (trace (main float title (Raises e) f clicked)) = [] /\
       model_calls (trace (main float title (Raises e) f clicked)) = []) /\
    (forall runs, List.length (loads (session float title runs)) = List.length runs).
Proof.
  intros float title. split; [|split].
  - intros artifact f clicked. split; [apply loads_main|].
    destruct artifact as [[model|]|e].
    + rewrite main_loaded. cbn [app]. eauto.
    + cbn. eauto.
    + rewrite main_failed_load. eauto.
  - intros e f clicked. rewrite main_failed_load. repeat split.
  - induction runs as [|r runs IH]; [reflexivity|].
    unfold session in *. cbn [flat_map]. rewrite loads_app, length_app, IH.
    unfold script_run. rewrite loads_main. reflexivity.
Qed.

(** C3, as the specification words it, fails on a session of two clicks:
    the model file is loaded in each run; and when the file is missing each
    run reports the failure, twice. *)
Lemma C3_counterexample :
  loads (session PyFloat.float PyStr.title
           [{| run_artifact := Returns (Some rice_model); run_form := valid_form; run_clicked := true |};
            {| run_artifact := Returns (Some rice_model); run_form := valid_form; run_clicked := true |}])
  = ["lgb_model.pickle"; "lgb_model.pickle"] /\
  List.length (errors (session PyFloat.float PyStr.title
           [{| run_artifact := Raises "No such file"; run_form := valid_form; run_clicked := false |};
            {| run_artifact := Raises "No such file"; run_form := valid_form; run_clicked := false |}]))
  = 4 /\
  ~ loaded_once PyFloat.float PyStr.title
      [{| run_artifact := Returns (Some rice_model); run_form := valid_form; run_clicked := true |};
       {| run_artifact := Returns (Some rice_model); run_form := valid_form; run_clicked := true |}].
Proof.
  split; [vm_compute; reflexivity|]. split; [vm_compute; reflexivity|].
  intros H. vm_compute in H. lia.
Qed.

(** * Further properties of the code *)

(** ** [validate_inputs] on any list *)

Lemma combine_firstn_length {A B : Type} (l : list A) (l' : list B) :
  combine l l' = combine (firstn (List.length l') l) l'.
Proof.
  revert l. induction l' as [|b l' IH]; intros [|a l]; simpl; try reflexivity.
  f_equal. apply IH.
Qed.

(** [zip] stops at the seventh name: [validate_inputs] reads the first
    seven values and ignores the others. *)
Theorem validate_inputs_reads_seven :
  forall inputs : list pyval,
    validate_inputs inputs = validate_inputs (firstn 7 inputs).
Proof.
  intros inputs. unfold validate_inputs.
  rewrite (combine_firstn_length inputs input_names). reflexivity.
Qed.

Lemma selected_nil {A B : Type} (sel : A -> bool) (l : list A) (l' : list B) :
  filter (fun ab => sel (fst ab)) (combine l l') = [] <->
  Forall (fun a => sel a = false) (firstn (List.length l') l).
Proof.
  revert l. induction l' as [|b l' IH]; intros [|a l]; simpl.
  - split; auto.
  - split; auto.
  - split; auto.
  - destruct (sel a) eqn:Ea.
    + split; [discriminate|]. intros H. inversion H; subst. congruence.
    + rewrite IH. split; [intros H; constructor; assumption|].
      intros H. inversion H; subst. assumption.
Qed.

(** [validate_inputs] returns no message exactly when none of the first
    seven values is [None] or the empty string; a float, 0.0 and NaN
    included, is never missing. *)
Theorem validate_inputs_nil_iff :
  forall inputs : list pyval,
    validate_inputs inputs = [] <->
    Forall (fun value => is_missing value = false) (firstn 7 inputs).
Proof.
  intros inputs. rewrite validate_inputs_spec.
  rewrite <- (selected_nil is_missing inputs input_names).
  split; [|intros ->; reflexivity].
  intros H. apply map_eq_nil in H. exact H.
Qed.

Lemma NoDup_selected {A : Type} (sel : A -> bool) (key : A -> string) (l : list A) :
  NoDup (map key l) -> NoDup (map key (filter sel l)).
Proof.
  induction l as [|a l IH]; simpl; intros H; [constructor|].
  inversion H as [|? ? Hnotin Hnd]; subst.
  destruct (sel a); simpl; auto. constructor; auto.
  intros Hin. apply Hnotin. revert Hin. apply selected_in.
Qed.

Lemma sublist_nil_l {A : Type} (l : list A) : sublist [] l.
Proof. induction l; constructor; assumption. Qed.

(** The messages selected from a zipped list come in the order of the
    second list. *)
Lemma sublist_selected {A B : Type} (sel : A * B -> bool) (g : B -> string)
    (l : list A) (l' : list B) :
  sublist (map (fun ab => g (snd ab)) (filter sel (combine l l'))) (map g l').
Proof.
  revert l. induction l' as [|b l' IH]; intros [|a l]; simpl;
    try apply sublist_nil_l.
  destruct (sel (a, b)); simpl; constructor; apply IH.
Qed.

(** Whatever the list, [validate_inputs] returns its messages in the order
    of the seven names, each at most once, only messages of those names,
    and no more messages than there are values or names. *)
Theorem validate_inputs_bounded :
  forall inputs : list pyval,
    sublist (validate_inputs inputs) (map required input_names) /\
    NoDup (validate_inputs inputs) /\
    incl (validate_inputs inputs) (map required input_names) /\
    (List.length (validate_inputs inputs) <= Nat.min (List.length inputs) 7)%nat.
Proof.
  intros inputs. rewrite validate_inputs_spec. split; [|split; [|split]].
  - apply (sublist_selected (fun vn => is_missing (fst vn)) required).
  - apply (NoDup_selected _ (fun vn : pyval * string => required (snd vn))).
    apply (NoDup_map_combine required). exact required_distinct.
  - intros msg Hin. apply in_map_iff in Hin as ([value name] & <- & Hin).
    apply filter_In in Hin as [Hin _]. apply in_map.
    eapply in_combine_r. exact Hin.
  - rewrite length_map.
    eapply Nat.le_trans; [apply filter_length_le|].
    rewrite length_combine. reflexivity.
Qed.

(** ** The conversion and the range loop *)

(** When the list comprehension returns, the feature list has one slot per
    field: [None] for an empty field and the float read for any other; no
    slot holds a string, so that the [value == ""] test of
    [validate_inputs] never decides in [main]. *)
Theorem to_features_slots :
  forall (float : string -> option spec_float) (xs : list string) (features : list pyval),
    value (to_features float xs) = Done features ->
    Forall2 (fun x v => (x = "" /\ v = PyNone) \/
                        (x <> "" /\ exists fl, float x = Some fl /\ v = PyFloat fl))
            xs features.
Proof.
  intros float xs features H.
  destruct (Exists_or_Forall_numeric float xs) as [Hbad|Hok].
  - rewrite (to_features_raises float xs Hbad) in H. discriminate.
  - rewrite (to_features_accepted float xs Hok) in H. injection H as <-.
    induction Hok as [|x xs Hx _ IH]; [constructor|].
    cbn [map]. constructor; [|exact IH].
    destruct (field_cases float x) as [->|[[fl [Hne Hfl]]|Hn]];
      [left; auto| |contradiction].
    right. split; [exact Hne|]. exists fl. split; [exact Hfl|].
    unfold slot. apply truthy_true in Hne. rewrite Hne, Hfl. reflexivity.
Qed.

Lemma to_features_slots_witness :
  Forall2 (fun x v => (x = "" /\ v = PyNone) \/
                      (x <> "" /\ exists fl, PyFloat.float x = Some fl /\ v = PyFloat fl))
          ["90"; ""; "42"]
          [PyFloat (PyFloat.of_int 90); PyNone; PyFloat (PyFloat.of_int 42)].
Proof.
  apply (to_features_slots PyFloat.float). vm_compute. reflexivity.
Defined.

Lemma Exists_fst_combine {A B : Type} (P : A -> Prop) (l : list A) (l' : list B) :
  Exists (fun ab => P (fst ab)) (combine l l') <-> Exists P (firstn (List.length l') l).
Proof.
  revert l. induction l' as [|b l' IH]; intros [|a l]; simpl;
    try solve [split; intros H; inversion H].
  rewrite !Exists_cons, IH. reflexivity.
Qed.

Lemma range_loop_raises (zipped : list (pyval * (Z * Z * string))) (acc : list string) :
  Exists (fun vr => is_float (fst vr) = false) zipped ->
  range_loop zipped acc = raise TypeError.
Proof.
  revert acc. induction zipped as [|[value [[min_val max_val] name]] rest IH];
    intros acc H; [inversion H|].
  destruct value as [|s|fl]; try reflexivity.
  inversion H as [? ? Hhd|? ? Htl]; subst; [discriminate|].
  cbn [range_loop value_lt value_gt]. rewrite bind_ret.
  destruct (PyFloat.lt_int fl min_val); rewrite bind_ret; apply IH; exact Htl.
Qed.

Lemma range_loop_returns (zipped : list (pyval * (Z * Z * string))) (acc : list string) :
  Forall (fun vr => is_float (fst vr) = true) zipped ->
  exists range_errors, range_loop zipped acc = ret range_errors.
Proof.
  intros H. revert acc.
  induction H as [|[value [[min_val max_val] name]] rest Hhd _ IH]; intros acc.
  - exists acc. reflexivity.
  - destruct value as [|s|fl]; try discriminate.
    cbn [range_loop value_lt value_gt]. rewrite bind_ret.
    destruct (PyFloat.lt_int fl min_val); rewrite bind_ret; apply IH.
Qed.

Lemma floats_or_not (zipped : list (pyval * (Z * Z * string))) :
  Exists (fun vr => is_float (fst vr) = false) zipped \/
  Forall (fun vr => is_float (fst vr) = true) zipped.
Proof.
  induction zipped as [|[value r] rest [IH|IH]]; auto.
  destruct (is_float value) eqn:E; [right|left]; constructor; auto.
Qed.

(** The range loop compares each of the first seven slots with its
    bounds: it raises [TypeError], which the [try] of [main] does not catch,
    exactly when one of them is not a float. This is why [main] runs it only
    when [validate_inputs] has found no missing value. *)
Theorem range_loop_raises_iff :
  forall (features : list pyval) (range_errors : list string),
    value (range_loop (combine features ranges) range_errors) = Raise TypeError <->
    Exists (fun v => is_float v = false) (firstn 7 features).
Proof.
  intros features acc.
  rewrite <- (Exists_fst_combine (fun v => is_float v = false) features ranges).
  split.
  - intros H. destruct (floats_or_not (combine features ranges)) as [Hbad|Hok]; [exact Hbad|].
    destruct (range_loop_returns _ acc Hok) as [errs E]. rewrite E in H. discriminate.
  - intros H. rewrite (range_loop_raises _ acc H). reflexivity.
Qed.

(** ** What the handler shows, and what it never does *)

Section Banners.

Variable float : string -> option spec_float.
Variable title : string -> string.
Variable model : Model.

Lemma no_outside_range_errors (vs : list spec_float) :
  Forall2 (fun v r => outside v r = false) vs ranges -> range_errors_of vs = [].
Proof.
  unfold range_errors_of. generalize ranges.
  intros rs H. induction H as [|v r vs rs Hv _ IH]; [reflexivity|].
  cbn [combine filter fst snd]. rewrite Hv. exact IH.
Qed.

(** The handler raises only what the object returned by the model raised
    under [if prediction] or [.title()], and never a [ValueError]. *)
Lemma on_predict_value (f : Form.t) (e : exn) :
  value (on_predict float title model f) = Raise e <->
  e <> ValueError /\
  exists vs truth titled,
    Forall2 (reads_as float) (Form.fields f) vs /\
    Forall2 (fun v r => outside v r = false) vs ranges /\
    predict model [map PyFloat vs] = Returns (ScalarOther truth titled) /\
    (truth = Raise e \/ truth = Done true /\ titled = Raise e).
Proof.
  split.
  - destruct (on_predict_cases float title model f)
      as [[_ E]|[(_ & _ & E)|[(vs & _ & _ & E)|(vs & Hvs & Hr & E)]]];
      try (rewrite E; try rewrite show_issues_spec; discriminate).
    assert (Hcalls : model_calls (trace (on_predict float title model f)) <> []).
    { rewrite E. cbn [trace snd]. rewrite model_calls_inference. discriminate. }
    destruct (predict_reached float title model f Hcalls) as (vs' & Hvs' & Hout & E').
    rewrite E'. cbn [value fst]. unfold inference_value.
    destruct (predict model [map PyFloat vs']) as [[label|truth titled]|e0] eqn:Ep;
      [discriminate| |discriminate].
    intros H.
    assert (He : e <> ValueError /\ (truth = Raise e \/ truth = Done true /\ titled = Raise e)).
    { destruct truth as [[]|e1]; [destruct titled as [text|e2]| |]; cbn [rendering] in H;
        try discriminate H; [destruct e2|destruct e1]; try discriminate H;
        injection H as <-; (split; [discriminate|auto]). }
    destruct He as [Hne Hraise]. split; [exact Hne|]. exists vs', truth, titled. auto.
  - intros (Hne & vs & truth & titled & Hvs & Hout & Hp & Hraise).
    rewrite (on_predict_present float title model f vs Hvs).
    rewrite (no_outside_range_errors vs Hout). cbn [nonempty value fst].
    unfold inference_value. rewrite Hp.
    destruct Hraise as [-> | [-> ->]]; cbn [rendering]; destruct e; congruence.
Qed.

Lemma issues_have_no_success (msgs : list string) :
  successes (trace (show_issues msgs)) = [].
Proof.
  rewrite show_issues_spec. cbn [trace snd].
  induction msgs as [|m msgs IH]; simpl; auto.
Qed.

Lemma issues_errors (msgs : list string) :
  errors (trace (show_issues msgs)) = ["Please fix the following issues:"].
Proof.
  rewrite show_issues_spec. cbn [trace snd]. simpl. f_equal.
  induction msgs as [|m msgs IH]; simpl; auto.
Qed.

Lemma issues_widgets (msgs : list string) :
  widgets (trace (show_issues msgs)) = [].
Proof.
  rewrite show_issues_spec. cbn [trace snd].
  induction msgs as [|m msgs IH]; simpl; auto.
Qed.

Lemma model_calls_at_most_one (f : Form.t) :
  (List.length (model_calls (trace (on_predict float title model f))) <= 1)%nat.
Proof.
  destruct (on_predict_cases float title model f)
    as [[_ E]|[(_ & _ & E)|[(vs & _ & _ & E)|(vs & _ & _ & E)]]]; rewrite E.
  - cbn. lia.
  - rewrite model_calls_show_issues. cbn. lia.
  - rewrite model_calls_show_issues. cbn. lia.
  - cbn [trace snd]. rewrite model_calls_inference. cbn. lia.
Qed.

Lemma widgets_on_predict (f : Form.t) :
  widgets (trace (on_predict float title model f)) = [].
Proof.
  destruct (on_predict_cases float title model f)
    as [[_ E]|[(_ & _ & E)|[(vs & _ & _ & E)|(vs & _ & _ & E)]]]; rewrite E.
  - reflexivity.
  - apply issues_widgets.
  - apply issues_widgets.
  - cbn [trace snd]. unfold inference_trace.
    destruct (predict model [map PyFloat vs]) as [prediction|e]; [|reflexivity].
    destruct (rendering title prediction) as [[text|]|[]]; reflexivity.
Qed.

(** The error banners of the handler are of three kinds. *)
Lemma on_predict_errors (f : Form.t) (msg : string) :
  In msg (errors (trace (on_predict float title model f))) ->
  msg = generic_error \/ msg = "Please fix the following issues:" \/
  exists e, msg = "Error making prediction: " ++ e.
Proof.
  destruct (on_predict_cases float title model f)
    as [[_ E]|[(_ & _ & E)|[(vs & _ & _ & E)|(vs & _ & _ & E)]]]; rewrite E.
  - intros [<-|[]]. auto.
  - rewrite issues_errors. intros [<-|[]]. auto.
  - rewrite issues_errors. intros [<-|[]]. auto.
  - cbn [trace snd]. unfold inference_trace.
    destruct (predict model [map PyFloat vs]) as [prediction|e].
    + destruct (rendering title prediction) as [[text|]|[]]; simpl;
        intuition (subst; auto).
    + intros [<-|[]]. eauto.
Qed.

End Banners.

Lemma main_value (float : string -> option spec_float) (title : string -> string)
    (artifact : outcome (option Model)) (f : Form.t) (clicked : bool) :
  value (main float title artifact f clicked) =
  match artifact, clicked with
  | Returns (Some model), true => value (on_predict float title model f)
  | _, _ => Done tt
  end.
Proof.
  destruct artifact as [[model|]|e]; try reflexivity.
  destruct clicked; [|reflexivity].
  unfold main, load_model. cbn -[on_predict].
  destruct (on_predict float title model f) as [r t]. reflexivity.
Qed.

(** [main] raises only what the object returned by the model raises. The
    exceptions of the program itself never leave it: the range loop, which
    would raise [TypeError] on [None], runs on floats only, and every
    [ValueError] is caught. [main] ends with an exception [e] exactly
    when the button was pressed with a loaded model, every field was
    read as a float, no value failed the range test, the model returned an
    object that is not a str, and [if prediction] or, the object being true,
    [prediction.title()] raised [e] on it, [e] not being a [ValueError]. So
    it is with a true int, which has no [title]: [AttributeError]. In every
    other case, and whenever the label is a str, [main] returns. *)
Theorem main_raises_only_for_a_label_that_is_not_a_str :
  forall (float : string -> option spec_float) (title : string -> string)
         (artifact : outcome (option Model)) (f : Form.t) (clicked : bool) (e : exn),
    value (main float title artifact f clicked) = Raise e <->
    e <> ValueError /\ clicked = true /\
    exists model vs truth titled,
      artifact = Returns (Some model) /\
      Forall2 (reads_as float) (Form.fields f) vs /\
      Forall2 (fun v r => outside v r = false) vs ranges /\
      predict model [map PyFloat vs] = Returns (ScalarOther truth titled) /\
      (truth = Raise e \/ truth = Done true /\ titled = Raise e).
Proof.
  intros float title artifact f clicked e. rewrite main_value. split.
  - destruct artifact as [[model|]|e0]; try discriminate.
    destruct clicked; [|discriminate]. intros H.
    apply on_predict_value in H as (Hne & vs & truth & titled & Hvs & Hout & Hp & Hraise).
    split; [exact Hne|]. split; [reflexivity|]. exists model, vs, truth, titled. auto.
  - intros (Hne & -> & model & vs & truth & titled & -> & Hvs & Hout & Hp & Hraise).
    apply on_predict_value. split; [exact Hne|]. exists vs, truth, titled. auto.
Qed.

(** A model whose labels are ints: the handler shows nothing and [main]
    ends with [AttributeError]. *)
Example int_label_raises :
  main PyFloat.float PyStr.title (Returns (Some int_model)) valid_form true =
  (Raise AttributeError,
   trace (main PyFloat.float PyStr.title (Returns (Some rice_model)) valid_form false) ++
   [st_spinner "Analyzing soil and climate parameters..."; time_sleep 1;
    model_predict [map PyFloat (read_all PyFloat.float valid_form)]])%list.
Proof. vm_compute. reflexivity. Qed.

(** A submission shows at most one banner: one error, or one success, or
    (when the model returns an empty label, or an object that is false or
    on which [.title()] fails) nothing; never an error and a success
    together. *)
Theorem on_predict_one_banner :
  forall (float : string -> option spec_float) (title : string -> string)
         (model : Model) (f : Form.t),
    (List.length (errors (trace (on_predict float title model f)))
     + List.length (successes (trace (on_predict float title model f))) <= 1)%nat.
Proof.
  intros float title model f.
  destruct (on_predict_cases float title model f)
    as [[_ E]|[(_ & _ & E)|[(vs & _ & _ & E)|(vs & _ & _ & E)]]]; rewrite E.
  - cbn. lia.
  - rewrite issues_errors, issues_have_no_success. cbn. lia.
  - rewrite issues_errors, issues_have_no_success. cbn. lia.
  - cbn [trace snd]. unfold inference_trace.
    destruct (predict model [map PyFloat vs]) as [prediction|e]; [|cbn; lia].
    destruct (rendering title prediction) as [[text|]|[]]; cbn; lia.
Qed.

(** The text of a recommendation: the title-cased label when the label is
    a str that is not empty, what [.title()] gives when it is another
    object that is true. *)
Lemma rendering_shown (title : string -> string) (prediction : scalar) (text : string) :
  rendering title prediction = Done (Some text) ->
  (exists label, prediction = ScalarStr label /\ label <> "" /\ text = title label) \/
  prediction = ScalarOther (Done true) (Done text).
Proof.
  destruct prediction as [label|[[]|e1] [text'|e2]]; cbn [rendering]; try discriminate.
  - destruct (PyStr.truthy label) eqn:Et; [|discriminate].
    intros H. injection H as <-. left. exists label.
    split; [reflexivity|]. split; [apply truthy_true; exact Et|reflexivity].
  - intros H. injection H as <-. right. reflexivity.
Qed.

(** A recommendation is shown only for a submission whose seven fields
    were read as floats, none below its minimum or above its maximum, and
    for which the model returned a true object: a str label that is not
    empty, shown title-cased by [str.title], or an object of another type
    with a [title] method, shown as that method gives it. The text is shown
    for exactly those values, followed by the echo of the seven inputs as
    they were typed, and the handler returns. *)
Theorem recommendation_comes_from_the_model :
  forall (float : string -> option spec_float) (title : string -> string)
         (model : Model) (f : Form.t) (shown : string),
    In (st_success shown) (trace (on_predict float title model f)) ->
    exists vs prediction text,
      Forall2 (reads_as float) (Form.fields f) vs /\
      Forall2 (fun v r => outside v r = false) vs ranges /\
      predict model [map PyFloat vs] = Returns prediction /\
      ((exists label, prediction = ScalarStr label /\ label <> "" /\ text = title label) \/
       prediction = ScalarOther (Done true) (Done text)) /\
      shown = "### Recommended Crop: **" ++ text ++ "** 🌱" /\
      on_predict float title model f =
      (Done tt,
       [st_spinner "Analyzing soil and climate parameters..."; time_sleep 1;
        model_predict [map PyFloat vs];
        st_success shown;
        st_markdown ("
                            This recommendation is based on:
                            - Nitrogen: " ++ Form.n f ++ " mg/kg
                            - Phosphorus: " ++ Form.p f ++ " mg/kg
                            - Potassium: " ++ Form.k f ++ " mg/kg
                            - Temperature: " ++ Form.temperature f ++ "°C
                            - Humidity: " ++ Form.humidity f ++ "%
                            - pH Level: " ++ Form.ph f ++ "
                            - Rainfall: " ++ Form.rainfall f ++ " mm
                            ")]).
Proof.
  intros float title model f shown Hin.
  assert (Hs : In shown (successes (trace (on_predict float title model f)))).
  { unfold successes. apply in_flat_map. exists (st_success shown). split; [exact Hin|].
    left. reflexivity. }
  assert (Hcalls : model_calls (trace (on_predict float title model f)) <> []).
  { destruct (on_predict_cases float title model f)
      as [[_ E]|[(_ & _ & E)|[(vs & _ & _ & E)|(vs & _ & _ & E)]]]; rewrite E in *.
    - destruct Hs.
    - rewrite issues_have_no_success in Hs. destruct Hs.
    - rewrite issues_have_no_success in Hs. destruct Hs.
    - cbn [trace snd]. rewrite model_calls_inference. discriminate. }
  destruct (predict_reached float title model f Hcalls) as (vs & Hvs & Hout & E).
  rewrite E in *. cbn [trace snd] in Hs. unfold inference_trace, inference_value in *.
  destruct (predict model [map PyFloat vs]) as [prediction|e] eqn:Ep; [|destruct Hs].
  destruct (rendering title prediction) as [[text|]|[]] eqn:Er;
    try solve [simpl in Hs; destruct Hs].
  destruct Hs as [<-|[]]. exists vs, prediction, text.
  split; [exact Hvs|]. split; [exact Hout|]. split; [exact Ep|].
  split; [exact (rendering_shown title prediction text Er)|]. split; reflexivity.
Qed.

Lemma recommendation_comes_from_the_model_witness :
  exists vs prediction text,
    Forall2 (reads_as PyFloat.float) (Form.fields valid_form) vs /\
    Forall2 (fun v r => outside v r = false) vs ranges /\
    predict rice_model [map PyFloat vs] = Returns prediction /\
    ((exists label, prediction = ScalarStr label /\ label <> "" /\ text = PyStr.title label) \/
     prediction = ScalarOther (Done true) (Done text)) /\
    "### Recommended Crop: **Rice** 🌱" = "### Recommended Crop: **" ++ text ++ "** 🌱" /\
    on_predict PyFloat.float PyStr.title rice_model valid_form =
    (Done tt,
     [st_spinner "Analyzing soil and climate parameters..."; time_sleep 1;
      model_predict [map PyFloat vs];
      st_success "### Recommended Crop: **Rice** 🌱";
      st_markdown "
                            This recommendation is based on:
                            - Nitrogen: 90 mg/kg
                            - Phosphorus: 42 mg/kg
                            - Potassium: 43 mg/kg
                            - Temperature: 20.8°C
                            - Humidity: 82%
                            - pH Level: 6.5
                            - Rainfall: 202.9 mm
                            "]).
Proof.
  apply (recommendation_comes_from_the_model PyFloat.float PyStr.title rice_model valid_form).
  vm_compute. auto 10.
Defined.

(** A submission that does not reach the model is answered without it:
    the outcome of validation is the same with any other model. *)
Theorem validation_ignores_the_model :
  forall (float : string -> option spec_float) (title : string -> string)
         (model model' : Model) (f : Form.t),
    model_calls (trace (on_predict float title model f)) = [] ->
    on_predict float title model' f = on_predict float title model f.
Proof.
  intros float title model model' f H.
  destruct (on_predict_cases float title model f)
    as [[Hbad E]|[(Hok & Hempty & E)|[(vs & Hvs & Hne & E)|(vs & _ & _ & E)]]].
  - rewrite E. apply on_predict_non_numeric. exact Hbad.
  - rewrite E. apply on_predict_missing; assumption.
  - rewrite E, (on_predict_present float title model' f vs Hvs).
    destruct (range_errors_of vs); [contradiction|reflexivity].
  - rewrite E in H. cbn [trace snd] in H. rewrite model_calls_inference in H. discriminate.
Qed.

Lemma validation_ignores_the_model_witness :
  on_predict PyFloat.float PyStr.title blank_model (Form.make "90" "" "43" "20.8" "82" "6.5" "202.9")
  = on_predict PyFloat.float PyStr.title rice_model (Form.make "90" "" "43" "20.8" "82" "6.5" "202.9").
Proof.
  apply validation_ignores_the_model. vm_compute. reflexivity.
Defined.

(** ** One run of [main] *)

Lemma model_calls_app (t t' : list event) :
  model_calls (t ++ t')%list = (model_calls t ++ model_calls t')%list.
Proof. apply flat_map_app. Qed.

Lemma widgets_app (t t' : list event) :
  widgets (t ++ t')%list = (widgets t ++ widgets t')%list.
Proof. apply flat_map_app. Qed.

Lemma errors_app (t t' : list event) :
  errors (t ++ t')%list = (errors t ++ errors t')%list.
Proof. apply flat_map_app. Qed.

Lemma model_calls_main (float : string -> option spec_float) (title : string -> string)
    (artifact : outcome (option Model)) (f : Form.t) (clicked : bool) :
  model_calls (trace (main float title artifact f clicked)) =
  match artifact, clicked with
  | Returns (Some model), true => model_calls (trace (on_predict float title model f))
  | _, _ => []
  end.
Proof.
  destruct artifact as [[model|]|e]; [|reflexivity|reflexivity].
  rewrite main_loaded, !model_calls_app. destruct clicked; reflexivity.
Qed.

(** In a run of [main] the model is called only if the model file was
    loaded, the button was pressed, every field was read as a float and
    each value is within its range or NaN. *)
Theorem main_predicts_only_if :
  forall (float : string -> option spec_float) (title : string -> string)
         (artifact : outcome (option Model)) (f : Form.t) (clicked : bool),
    model_calls (trace (main float title artifact f clicked)) <> [] ->
    clicked = true /\
    (exists model, artifact = Returns (Some model)) /\
    exists vs,
      Forall2 (reads_as float) (Form.fields f) vs /\
      Forall2 (fun v r => v = S754_nan \/ within v r = true) vs ranges.
Proof.
  intros float title artifact f clicked H. rewrite model_calls_main in H.
  destruct artifact as [[model|]|e]; [|contradiction|contradiction].
  destruct clicked; [|contradiction].
  split; [reflexivity|]. split; [eauto|].
  exact (predict_only_if float title model f H).
Qed.

Lemma main_predicts_only_if_witness :
  exists vs,
    Forall2 (reads_as PyFloat.float) (Form.fields valid_form) vs /\
    Forall2 (fun v r => v = S754_nan \/ within v r = true) vs ranges.
Proof.
  refine (proj2 (proj2 (main_predicts_only_if PyFloat.float PyStr.title (Returns (Some rice_model))
                          valid_form true _))).
  vm_compute. discriminate.
Defined.

(** When the model file is loaded, every run draws the seven fields and
    the button, in this order, whatever is typed and whether or not the
    button was pressed: the handler draws no widget of its own. *)
Theorem main_draws_the_form :
  forall (float : string -> option spec_float) (title : string -> string)
         (model : Model) (f : Form.t) (clicked : bool),
    widgets (trace (main float title (Returns (Some model)) f clicked)) =
    ["Nitrogen (N) - mg/kg"; "Phosphorus (P) - mg/kg"; "Potassium (K) - mg/kg";
     "Temperature (°C)"; "Humidity (%)"; "pH Level"; "Rainfall (mm)";
     "Predict Recommended Crop"].
Proof.
  intros float title model f clicked. rewrite main_loaded, !widgets_app.
  destruct clicked; [rewrite widgets_on_predict|]; reflexivity.
Qed.

(** The "Failed to load the model" error is shown exactly when
    [load_model] returns [None]: opening or unpickling the model file
    raised, or the file unpickled to [None]. In the second case it is the
    only error shown, no widget is drawn and the model is not called. *)
Theorem load_failure_shown_iff :
  forall (float : string -> option spec_float) (title : string -> string)
         (artifact : outcome (option Model)) (f : Form.t) (clicked : bool),
    (In "Failed to load the model. Please check if 'model.pickle' exists."
        (errors (trace (main float title artifact f clicked))) <->
     (exists e, artifact = Raises e) \/ artifact = Returns None) /\
    (artifact = Returns None ->
     errors (trace (main float title artifact f clicked)) =
       ["Failed to load the model. Please check if 'model.pickle' exists."] /\
     widgets (trace (main float title artifact f clicked)) = [] /\
     model_calls (trace (main float title artifact f clicked)) = []).
Proof.
  intros float title artifact f clicked. split; [split|].
  - destruct artifact as [[model|]|e]; [|auto|eauto].
    rewrite main_loaded, !errors_app. intros H.
    apply in_app_or in H as [[]|H]. apply in_app_or in H as [[]|H].
    destruct clicked; [|destruct H].
    destruct (on_predict_errors float title model f _ H) as [E|[E|[e E]]]; discriminate.
  - intros [[e ->]| ->].
    + rewrite main_failed_load. simpl. auto.
    + simpl. auto.
  - intros ->. repeat split.
Qed.

(** ** Sessions *)

(** Over a session the model is called at most once per press of the
    button, and never in a run without one. *)
Theorem session_predicts_at_most_once_per_click :
  forall (float : string -> option spec_float) (title : string -> string) (runs : list run),
    (List.length (model_calls (session float title runs))
     <= List.length (filter run_clicked runs))%nat.
Proof.
  intros float title runs. induction runs as [|r runs IH]; [reflexivity|].
  unfold session in *. cbn [flat_map filter].
  rewrite model_calls_app, length_app. unfold script_run at 1.
  rewrite model_calls_main.
  destruct (run_artifact r) as [[model|]|e]; destruct (run_clicked r); cbn [List.length];
    try lia.
  pose proof (model_calls_at_most_one float title model (run_form r)). lia.
Qed.

(** ** The range test *)

(** For every value but NaN, and each of the seven ranges, the test of
    the loop fails exactly when [min_val <= value <= max_val]. *)
Theorem range_test_is_within_off_nan :
  forall (v : spec_float) (r : Z * Z * string),
    v <> S754_nan -> In r ranges ->
    (outside v r = false <-> within v r = true).
Proof.
  intros v r Hv Hr. split.
  - apply outside_false_within; assumption.
  - destruct r as [[min_val max_val] name]. unfold within. intros H.
    apply andb_prop in H as [Hlo Hhi]. apply within_not_outside; assumption.
Qed.

Lemma range_test_is_within_off_nan_witness :
  outside (PyFloat.of_int 140) (0, 140, "Phosphorus")%Z = false <->
  within (PyFloat.of_int 140) (0, 140, "Phosphorus")%Z = true.
Proof.
  apply range_test_is_within_off_nan.
  - vm_compute. discriminate.
  - simpl. auto.
Defined.

(** Every minimum is 0 and every maximum is finite: in all seven fields a
    negative number and an infinity of either sign are out of range,
    while a zero of either sign passes the test. *)
Theorem negative_and_infinite_values_are_outside :
  Forall (fun r : Z * Z * string =>
            (forall m e, outside (S754_finite true m e) r = true) /\
            (forall s, outside (S754_infinity s) r = true) /\
            (forall s, outside (S754_zero s) r = false)) ranges.
Proof.
  repeat (apply Forall_cons;
          [split; [reflexivity|split; intros s; destruct s; reflexivity]|]).
  apply Forall_nil.
Qed.

(** ** Fields of whitespace *)

Lemma lstrip_in (c : ascii) (s : list ascii) : In c (PyFloat.lstrip s) -> In c s.
Proof.
  induction s as [|d s IH]; [auto|]. cbn [PyFloat.lstrip].
  destruct (PyFloat.is_space d); [right; auto|auto].
Qed.

Lemma strip_in (c : ascii) (s : list ascii) : In c (PyFloat.strip s) -> In c s.
Proof.
  unfold PyFloat.strip. intros H.
  apply in_rev in H. apply lstrip_in in H. apply in_rev in H. apply lstrip_in in H.
  exact H.
Qed.

(** [float] rejects a text of whitespace: nothing is left once it is
    stripped, or what is left starts with a separator (28 to 31), which
    [float] does not strip and which starts no number. *)
Lemma float_blank (x : string) : blank x = true -> PyFloat.float x = None.
Proof.
  unfold blank, PyFloat.float, PyFloat.float_of_chars. intros H.
  destruct (PyFloat.strip (list_ascii_of_string x)) as [|c t] eqn:E; [reflexivity|].
  assert (Hc : PyStr.isspace c = true).
  { apply (proj1 (forallb_forall _ _) H). apply strip_in. rewrite E. left. reflexivity. }
  destruct c as [[] [] [] [] [] [] [] []]; vm_compute in Hc; try discriminate Hc;
    reflexivity.
Qed.

(** A field that holds only whitespace is not a missing value: the text
    is not empty, [float] rejects it, and the submission gets the generic
    "valid numbers" error instead of the field's "is required" message. *)
Theorem blank_field_gives_generic_error :
  forall (title : string -> string) (model : Model) (f : Form.t),
    Exists (fun x => x <> "" /\ blank x = true) (Form.fields f) ->
    on_predict PyFloat.float title model f = (Done tt, [st_error generic_error]).
Proof.
  intros title model f H. apply on_predict_non_numeric.
  apply Exists_exists in H as (x & Hin & Hne & Hb).
  apply Exists_exists. exists x. split; [exact Hin|].
  split; [exact Hne|apply float_blank; exact Hb].
Qed.

Lemma blank_field_gives_generic_error_witness :
  on_predict PyFloat.float PyStr.title rice_model (Form.make "90" "42" "  " "20.8" "82" "6.5" "202.9")
  = (Done tt, [st_error generic_error]).
Proof.
  apply blank_field_gives_generic_error.
  do 2 apply Exists_cons_tl. apply Exists_cons_hd.
  split; [discriminate|reflexivity].
Defined.

(** ** The list of issues *)

(** The itemized messages of a submission are never mixed: they are
    "is required" messages only, or "must be between" messages only, each
    list in field order; the only other thing shown with [st.markdown] is
    the echo of a successful prediction. *)
Theorem issues_are_of_one_kind_in_field_order :
  forall (float : string -> option spec_float) (title : string -> string)
         (model : Model) (f : Form.t),
    sublist (markdowns (trace (on_predict float title model f)))
            (map (fun name => warning (required name)) input_names) \/
    sublist (markdowns (trace (on_predict float title model f)))
            (map (fun r => warning (range_message_of r)) ranges) \/
    markdowns (trace (on_predict float title model f)) = [based_on f].
Proof.
  intros float title model f.
  destruct (on_predict_cases float title model f)
    as [[_ E]|[(_ & _ & E)|[(vs & _ & _ & E)|(vs & _ & _ & E)]]]; rewrite E.
  - left. apply sublist_nil_l.
  - left. rewrite markdowns_show_issues, validate_inputs_spec, map_map.
    apply (sublist_selected (fun vn => is_missing (fst vn))
             (fun name => warning (required name))).
  - right. left. rewrite markdowns_show_issues. unfold range_errors_of. rewrite map_map.
    apply (sublist_selected (fun vr => outside (fst vr) (snd vr))
             (fun r => warning (range_message_of r))).
  - cbn [trace snd]. unfold inference_trace.
    destruct (predict model [map PyFloat vs]) as [prediction|e]; [|left; apply sublist_nil_l].
    destruct (rendering title prediction) as [[text|]|[]];
      solve [right; right; reflexivity|left; apply sublist_nil_l].
Qed.
